(** * Thunderdome: liveness checks and teardown of provisioned AWS resources

    A shallow embedding of the resource helpers of the thunderdome
    deployment tool ([isTaskActive], [isTaskDefinitionActive],
    [isSnsSubscriptionActive], [isSqsQueueActive], [isEc2InstanceActive],
    [stopEcsTask], [deregisterEcsTaskDefinition], [unsubscribeSqsQueue],
    [deleteSqsQueue]) and the properties of their verdicts.

    The Go functions talk to the provider through SDK clients and write
    to the process-wide structured logger.  Both effects are explicit
    here: a computation of type [Go A] threads the provider's state (the
    [world]) and the list of emitted log records, and ends either with a
    value or with a run-time panic. *)

From stdpp Require Import base strings gmap list pretty.

Set Default Proof Using "Type".

(** ** Go values *)

(** The dynamic type of an error value.  Only the types that matter to
    the code are named; every other type is [other_type], together with
    the fact whether it has the method set of [smithy.APIError]. *)
Inductive ErrorType :=
| sns_NotFoundException        (* *snstypes.NotFoundException *)
| sqs_QueueDoesNotExist        (* *sqstypes.QueueDoesNotExist *)
| smithy_GenericAPIError       (* *smithy.GenericAPIError *)
| smithy_OperationError        (* *smithy.OperationError *)
| http_ResponseError           (* *awshttp.ResponseError *)
| fmt_wrapError                (* *fmt.wrapError, made by fmt.Errorf with %w *)
| other_type (name : string) (api : bool).

(** A non-nil [error]: its dynamic type, the text of [Error()] and what
    [Unwrap()] gives.  A nil [error] is [None] of [option error].  Errors
    form chains, as the SDK and [fmt.Errorf] with one [%w] build them;
    joined errors, which unwrap to several, are not modelled. *)
#[warnings="-register-all"]
Inductive error :=
| mkError (etype : ErrorType) (emsg : string) (unwrap : option error).

Definition etype (e : error) : ErrorType := let 'mkError t _ _ := e in t.
Definition emsg (e : error) : string := let 'mkError _ m _ := e in m.
Definition unwrap (e : error) : option error := let 'mkError _ _ u := e in u.

(** Does a value of this dynamic type satisfy the interface
    [smithy.APIError]?  The modelled service exceptions and the generic
    API error do, the transport wrappers do not. *)
Definition implements_APIError (t : ErrorType) : bool :=
  match t with
  | sns_NotFoundException | sqs_QueueDoesNotExist | smithy_GenericAPIError => true
  | smithy_OperationError | http_ResponseError | fmt_wrapError => false
  | other_type _ api => api
  end.

Module errors.
(** [errors.As(err, &apiError)] with [apiError] of type
    [smithy.APIError]: the first error of the [Unwrap] chain that
    satisfies the interface. *)
Fixpoint As_APIError (err : error) : option error :=
  match err with
  | mkError t _ u =>
      if implements_APIError t then Some err
      else match u with
           | Some inner => As_APIError inner
           | None => None
           end
  end.
End errors.

Module fmt.
(** [fmt.Errorf(prefix + "%w", err)]: a new error that prints the
    prefix followed by the text of [err], and unwraps to [err]. *)
Definition Errorf_w (prefix : string) (err : error) : error :=
  mkError fmt_wrapError (prefix +:+ emsg err) (Some err).

(** [fmt.Sprintf(prefix + "%d", n)] *)
Definition Sprintf_d (prefix : string) (n : nat) : string :=
  prefix +:+ pretty n.
End fmt.

(** ** Structured logging *)

Module slog.
Inductive Level := LevelDebug | LevelInfo | LevelWarn | LevelError.

Record Record_ := mkRecord {
  level : Level;
  message : string;
  attrs : list (string * string)
}.

(** A logger made by [slog.With]: the attributes it adds to every
    record. *)
Definition Logger := list (string * string).

Definition With (args : list (string * string)) : Logger := args.
End slog.

(** ** The provider's request and response shapes

    Pointers to strings are [option string]; only the fields the code
    reads or writes are kept. *)

Module ecstypes.
Record Task := mkTask {
  TaskArn : option string;
  LastStatus : option string
}.

(** [type TaskDefinitionStatus string] with its enum values. *)
Definition TaskDefinitionStatus := string.
Definition TaskDefinitionStatusActive : TaskDefinitionStatus := "ACTIVE".
Definition TaskDefinitionStatusInactive : TaskDefinitionStatus := "INACTIVE".
Definition TaskDefinitionStatusDeleteInProgress : TaskDefinitionStatus :=
  "DELETE_IN_PROGRESS".

Record TaskDefinition := mkTaskDefinition {
  TaskDefinitionArn : option string;
  Status : TaskDefinitionStatus
}.
End ecstypes.

Module ecs.
Record DescribeTasksInput := mkDescribeTasksInput {
  dt_Cluster : option string;
  dt_Tasks : list string
}.
Record DescribeTasksOutput := mkDescribeTasksOutput {
  Tasks : list ecstypes.Task
}.
Record DescribeTaskDefinitionInput := mkDescribeTaskDefinitionInput {
  dtd_TaskDefinition : option string
}.
Record DescribeTaskDefinitionOutput := mkDescribeTaskDefinitionOutput {
  TaskDefinition : option ecstypes.TaskDefinition
}.
Record StopTaskInput := mkStopTaskInput {
  st_Cluster : option string;
  st_Task : option string
}.
Record StopTaskOutput := mkStopTaskOutput {
  st_out_Task : option ecstypes.Task
}.
Record DeregisterTaskDefinitionInput := mkDeregisterTaskDefinitionInput {
  dr_TaskDefinition : option string
}.
Record DeregisterTaskDefinitionOutput := mkDeregisterTaskDefinitionOutput {
  dr_out_TaskDefinition : option ecstypes.TaskDefinition
}.
End ecs.

Module sns.
Record GetSubscriptionAttributesInput := mkGetSubscriptionAttributesInput {
  gsa_SubscriptionArn : option string
}.
(** [Attributes map[string]string]: [None] is the nil map. *)
Record GetSubscriptionAttributesOutput := mkGetSubscriptionAttributesOutput {
  Attributes : option (gmap string string)
}.
Record UnsubscribeInput := mkUnsubscribeInput {
  un_SubscriptionArn : option string
}.
Record UnsubscribeOutput := mkUnsubscribeOutput { }.
End sns.

Module sqstypes.
Definition QueueAttributeName := string.
Definition QueueAttributeNameQueueArn : QueueAttributeName := "QueueArn".
End sqstypes.

Module sqs.
Record GetQueueAttributesInput := mkGetQueueAttributesInput {
  gqa_QueueUrl : option string;
  gqa_AttributeNames : list sqstypes.QueueAttributeName
}.
Record GetQueueAttributesOutput := mkGetQueueAttributesOutput {
  Attributes : option (gmap string string)
}.
Record DeleteQueueInput := mkDeleteQueueInput {
  dq_QueueUrl : option string
}.
Record DeleteQueueOutput := mkDeleteQueueOutput { }.
End sqs.

Module ec2types.
Record Reservation := mkReservation {
  ReservationId : option string
}.
End ec2types.

Module ec2.
Record DescribeInstancesInput := mkDescribeInstancesInput {
  InstanceIds : list string
}.
Record DescribeInstancesOutput := mkDescribeInstancesOutput {
  Reservations : list ec2types.Reservation
}.
End ec2.

(** Indexing a Go map of strings: a missing key, and every key of the
    nil map, reads as the zero value. *)
Definition map_index (m : gmap string string) (k : string) : string :=
  default "" (m !! k).

(** ** Computations *)

(** How a Go function ends: it returns, or it panics. *)
Inductive Outcome (A : Type) :=
| Done (a : A)
| Panic (reason : string).
Arguments Done {A} a.
Arguments Panic {A} reason.

Section Core.
(** The provider's side of the conversation is not fixed: [World] is
    whatever state it keeps, [Ctx] the caller's [context.Context]. *)
Context {World Ctx : Type}.

Record Env := mkEnv {
  world : World;
  records : list slog.Record_
}.

Definition Go (A : Type) : Type := Env → Outcome A * Env.

#[export] Instance Go_ret : MRet Go := λ A a env, (Done a, env).
#[export] Instance Go_bind : MBind Go := λ A B f m env,
  match m env with
  | (Done a, env') => f a env'
  | (Panic r, env') => (Panic r, env')
  end.

Definition panic {A} (reason : string) : Go A := λ env, (Panic reason, env).

(** Reading a field through a pointer *)
Definition deref {A} (p : option A) : Go A :=
  match p with
  | Some a => mret a
  | None => panic "invalid memory address or nil pointer dereference"
  end.

(** An SDK operation: request in, response pointer and error out,
    with whatever it does to the provider's state. *)
Definition Operation (I O : Type) : Type :=
  Ctx → I → World → (option O * option error) * World.

Definition invoke {I O} (op : Operation I O) (ctx : Ctx) (i : I)
  : Go (option O * option error) :=
  λ env, let '(r, w) := op ctx i (world env) in
         (Done r, mkEnv w (records env)).

Definition emit (l : slog.Level) (lg : slog.Logger) (msg : string)
    (args : list (string * string)) : Go unit :=
  λ env, (Done (), mkEnv (world env)
                     (records env ++ [slog.mkRecord l msg (lg ++ args)])).

Definition Logger_Debug := emit slog.LevelDebug.
Definition Logger_Warn := emit slog.LevelWarn.

(** The service clients, as the code uses them. *)
Record ecs_Client := mkEcsClient {
  DescribeTasks : Operation ecs.DescribeTasksInput ecs.DescribeTasksOutput;
  DescribeTaskDefinition :
    Operation ecs.DescribeTaskDefinitionInput ecs.DescribeTaskDefinitionOutput;
  StopTask : Operation ecs.StopTaskInput ecs.StopTaskOutput;
  DeregisterTaskDefinition :
    Operation ecs.DeregisterTaskDefinitionInput ecs.DeregisterTaskDefinitionOutput
}.
Record sns_Client := mkSnsClient {
  GetSubscriptionAttributes :
    Operation sns.GetSubscriptionAttributesInput sns.GetSubscriptionAttributesOutput;
  Unsubscribe : Operation sns.UnsubscribeInput sns.UnsubscribeOutput
}.
Record sqs_Client := mkSqsClient {
  GetQueueAttributes :
    Operation sqs.GetQueueAttributesInput sqs.GetQueueAttributesOutput;
  DeleteQueue : Operation sqs.DeleteQueueInput sqs.DeleteQueueOutput
}.
Record ec2_Client := mkEc2Client {
  DescribeInstances :
    Operation ec2.DescribeInstancesInput ec2.DescribeInstancesOutput
}.

(** [aws.Config] stands for the clients that [NewFromConfig] builds
    from it. *)
Record aws_Config := mkConfig {
  ecs_NewFromConfig : ecs_Client;
  sns_NewFromConfig : sns_Client;
  sqs_NewFromConfig : sqs_Client;
  ec2_NewFromConfig : ec2_Client
}.

(** ** The liveness checks *)

(** The status test of [isTaskActive] *)
Definition stopping_status (s : string) : bool :=
  String.eqb s "DEACTIVATING" ||
  String.eqb s "STOPPING" ||
  String.eqb s "DEPROVISIONING" ||
  String.eqb s "STOPPED" ||
  String.eqb s "DELETED".

(** [ta.TaskArn != nil && *ta.TaskArn == taskArn] *)
Definition task_matches (taskArn : string) (ta : ecstypes.Task) : bool :=
  match ecstypes.TaskArn ta with
  | Some a => String.eqb a taskArn
  | None => false
  end.

(** The [for _, ta := range out.Tasks] loop of [isTaskActive]; [Some]
    is a [return] from inside the loop, [None] falls out of it. *)
Fixpoint rangeTasks (logger : slog.Logger) (taskArn : string)
    (tasks : list ecstypes.Task) : Go (option (bool * option error)) :=
  match tasks with
  | [] => mret None
  | ta :: rest =>
      if task_matches taskArn ta then
        match ecstypes.LastStatus ta with
        | Some status =>
            Logger_Debug logger "task found" [("status", status)];;
            if stopping_status status
            then mret (Some (false, None))
            else mret (Some (true, None))
        | None =>
            Logger_Warn logger "task found, but cannot read status" [];;
            mret (Some (true, None))
        end
      else rangeTasks logger taskArn rest
  end.

Definition isTaskActive (ctx : Ctx) (cfg : aws_Config)
    (ecsClusterArn taskArn : string) : Go (bool * option error) :=
  let logger := slog.With [("arn", taskArn); ("cluster_arn", ecsClusterArn)] in
  Logger_Debug logger "checking if task is active" [];;
  let svc := ecs_NewFromConfig cfg in
  let in_ := ecs.mkDescribeTasksInput (Some ecsClusterArn) [taskArn] in
  '(out, err) ← invoke (DescribeTasks svc) ctx in_;
  match err with
  | Some err => mret (true, Some (fmt.Errorf_w "describe tasks: " err))
  | None =>
      out ← deref out;
      r ← rangeTasks logger taskArn (ecs.Tasks out);
      match r with
      | Some v => mret v
      | None =>
          Logger_Debug logger "task not found" [];;
          mret (false, None)
      end
  end.

(** [out.TaskDefinition.TaskDefinitionArn != nil &&
    *out.TaskDefinition.TaskDefinitionArn == arn] *)
Definition definition_matches (arn : string) (td : ecstypes.TaskDefinition) : bool :=
  match ecstypes.TaskDefinitionArn td with
  | Some a => String.eqb a arn
  | None => false
  end.

Definition isTaskDefinitionActive (ctx : Ctx) (cfg : aws_Config)
    (arn : string) : Go (bool * option error) :=
  let logger := slog.With [("arn", arn)] in
  Logger_Debug logger "checking if task definition is active" [];;
  let svc := ecs_NewFromConfig cfg in
  let in_ := ecs.mkDescribeTaskDefinitionInput (Some arn) in
  '(out, err) ← invoke (DescribeTaskDefinition svc) ctx in_;
  match err with
  | Some err => mret (true, Some (fmt.Errorf_w "describe task definition: " err))
  | None =>
      out ← deref out;
      match ecs.TaskDefinition out with
      | Some td =>
          if definition_matches arn td then
            if String.eqb (ecstypes.Status td) ecstypes.TaskDefinitionStatusActive
            then Logger_Debug logger "task definition active" [];;
                 mret (true, None)
            else Logger_Debug logger "task definition not active" [];;
                 mret (false, None)
          else Logger_Debug logger "task definition not found" [];;
               mret (false, None)
      | None =>
          Logger_Debug logger "task definition not found" [];;
          mret (false, None)
      end
  end.

(** [errors.As(err, &apiError)] followed by the type switch with the
    single case [*snstypes.NotFoundException]; both
    [isSnsSubscriptionActive] and [isSqsQueueActive] have it. *)
Definition is_sns_NotFoundException (err : error) : bool :=
  match errors.As_APIError err with
  | Some apiError =>
      match etype apiError with
      | sns_NotFoundException => true
      | _ => false
      end
  | None => false
  end.

Definition isSnsSubscriptionActive (ctx : Ctx) (cfg : aws_Config)
    (arn : string) : Go (bool * option error) :=
  let logger := slog.With [("arn", arn)] in
  Logger_Debug logger "checking if subscription is active" [];;
  let svc := sns_NewFromConfig cfg in
  let in_ := sns.mkGetSubscriptionAttributesInput (Some arn) in
  '(out, err) ← invoke (GetSubscriptionAttributes svc) ctx in_;
  match err with
  | Some err =>
      if is_sns_NotFoundException err then mret (false, None)
      else mret (true, Some (fmt.Errorf_w "get subscription attributes: " err))
  | None =>
      (* out == nil || out.Attributes == nil *)
      match out ≫= sns.Attributes with
      | None =>
          Logger_Debug logger "no attributes found" [];;
          mret (false, None)
      | Some attributes =>
          if negb (String.eqb (map_index attributes "TopicArn") "")
          then Logger_Debug logger "topic found" [];;
               mret (true, None)
          else Logger_Debug logger "no topic found" [];;
               mret (false, None)
      end
  end.

Definition isSqsQueueActive (ctx : Ctx) (cfg : aws_Config)
    (url : string) : Go (bool * option error) :=
  let logger := slog.With [("url", url)] in
  Logger_Debug logger "checking if queue is active" [];;
  let svc := sqs_NewFromConfig cfg in
  let in_ := sqs.mkGetQueueAttributesInput (Some url)
               [sqstypes.QueueAttributeNameQueueArn] in
  '(out, err) ← invoke (GetQueueAttributes svc) ctx in_;
  match err with
  | Some err =>
      if is_sns_NotFoundException err then mret (false, None)
      else mret (true, Some (fmt.Errorf_w "get subscription attributes: " err))
  | None =>
      (* out == nil || out.Attributes == nil *)
      match out ≫= sqs.Attributes with
      | None =>
          Logger_Debug logger "no attributes found" [];;
          mret (false, None)
      | Some attributes =>
          if negb (String.eqb (map_index attributes "QueueArn") "")
          then Logger_Debug logger "queue arn found" [];;
               mret (true, None)
          else Logger_Debug logger "no queue found" [];;
               mret (false, None)
      end
  end.

Definition isEc2InstanceActive (ctx : Ctx) (cfg : aws_Config)
    (instanceID : string) : Go (bool * option error) :=
  let logger := slog.With [("instance_id", instanceID)] in
  Logger_Debug logger "checking if ec2 instance is active" [];;
  let svc := ec2_NewFromConfig cfg in
  let in_ := ec2.mkDescribeInstancesInput [instanceID] in
  '(out, err) ← invoke (DescribeInstances svc) ctx in_;
  match err with
  | Some err => mret (true, Some (fmt.Errorf_w "describe ec2 instances: " err))
  | None =>
      out ← deref out;
      match length (ec2.Reservations out) with
      | 0 =>
          Logger_Debug logger "no reservations found" [];;
          mret (false, None)
      | 1 =>
          Logger_Debug logger "reservation still active" [];;
          mret (true, None)
      | _ =>
          Logger_Warn logger
            (fmt.Sprintf_d "unexpected number of instance reservations found: "
               (length (ec2.Reservations out))) [];;
          mret (true, None)
      end
  end.

(** ** The teardown calls *)

Definition stopEcsTask (ctx : Ctx) (cfg : aws_Config)
    (ecsClusterArn taskArn : string) : Go (option error) :=
  let svc := ecs_NewFromConfig cfg in
  let in_ := ecs.mkStopTaskInput (Some ecsClusterArn) (Some taskArn) in
  '(_, err) ← invoke (StopTask svc) ctx in_;
  match err with
  | Some err => mret (Some (fmt.Errorf_w "stop task: " err))
  | None => mret None
  end.

Definition deregisterEcsTaskDefinition (ctx : Ctx) (cfg : aws_Config)
    (arn : string) : Go (option error) :=
  let in_ := ecs.mkDeregisterTaskDefinitionInput (Some arn) in
  let svc := ecs_NewFromConfig cfg in
  '(_, err) ← invoke (DeregisterTaskDefinition svc) ctx in_;
  match err with
  | Some err => mret (Some (fmt.Errorf_w "deregister task definition: " err))
  | None => mret None
  end.

Definition unsubscribeSqsQueue (ctx : Ctx) (cfg : aws_Config)
    (arn : string) : Go (option error) :=
  let snssvc := sns_NewFromConfig cfg in
  let in_ := sns.mkUnsubscribeInput (Some arn) in
  '(_, err) ← invoke (Unsubscribe snssvc) ctx in_;
  match err with
  | Some err => mret (Some (fmt.Errorf_w "unsubscribe from request topic: " err))
  | None => mret None
  end.

Definition deleteSqsQueue (ctx : Ctx) (cfg : aws_Config)
    (queueURL : string) : Go (option error) :=
  let svc := sqs_NewFromConfig cfg in
  let in_ := sqs.mkDeleteQueueInput (Some queueURL) in
  '(_, err) ← invoke (DeleteQueue svc) ctx in_;
  match err with
  | Some err => mret (Some (fmt.Errorf_w "delete queue: " err))
  | None => mret None
  end.

(** ** Reading a run *)

(** What a computation returns, the state it leaves, and the log
    records it wrote. *)
Definition result {A} (m : Go A) (env : Env) : Outcome A := fst (m env).
Definition after {A} (m : Go A) (env : Env) : Env := snd (m env).
Definition emitted {A} (m : Go A) (env : Env) : list slog.Record_ :=
  drop (length (records env)) (records (after m env)).

(** The provider's answer to the one request each function sends. *)
Definition tasks_answer (ctx : Ctx) (cfg : aws_Config) (cluster task : string)
    (env : Env) :=
  DescribeTasks (ecs_NewFromConfig cfg) ctx
    (ecs.mkDescribeTasksInput (Some cluster) [task]) (world env).
Definition definition_answer (ctx : Ctx) (cfg : aws_Config) (arn : string)
    (env : Env) :=
  DescribeTaskDefinition (ecs_NewFromConfig cfg) ctx
    (ecs.mkDescribeTaskDefinitionInput (Some arn)) (world env).
Definition subscription_answer (ctx : Ctx) (cfg : aws_Config) (arn : string)
    (env : Env) :=
  GetSubscriptionAttributes (sns_NewFromConfig cfg) ctx
    (sns.mkGetSubscriptionAttributesInput (Some arn)) (world env).
Definition queue_answer (ctx : Ctx) (cfg : aws_Config) (url : string)
    (env : Env) :=
  GetQueueAttributes (sqs_NewFromConfig cfg) ctx
    (sqs.mkGetQueueAttributesInput (Some url) ["QueueArn"]) (world env).
Definition instances_answer (ctx : Ctx) (cfg : aws_Config) (id : string)
    (env : Env) :=
  DescribeInstances (ec2_NewFromConfig cfg) ctx
    (ec2.mkDescribeInstancesInput [id]) (world env).

(** A check never says "inactive" next to an error when every error it
    returns comes with the verdict "active". *)
Definition error_means_active (check : Go (bool * option error)) : Prop :=
  ∀ env b failure, result check env = Done (b, Some failure) → b = true.

(** A check [tags] its log records with [ids] when it keeps the records
    that were there, in place, and every record it adds starts its
    attributes with [ids]; it adds at least one. *)
Definition tags {A : Type} (check : Go A) (ids : list (string * string)) : Prop :=
  ∀ env,
    records (after check env) = records env ++ emitted check env
    ∧ emitted check env ≠ []
    ∧ Forall (λ r, ids `prefix_of` slog.attrs r) (emitted check env).

(** A teardown [propagates] the outcome of the provider call [call]
    when, from every state, it leaves the provider as one such call
    does and writes no log record, returns an error exactly when the
    call returned one, and then returns the call's error wrapped under
    [prefix]. *)
Definition propagates {O : Type} (teardown : Go (option error))
    (call : World → (option O * option error) * World) (prefix : string) : Prop :=
  ∀ env, ∃ failure,
    result teardown env = Done failure
    ∧ world (after teardown env) = snd (call (world env))
    ∧ records (after teardown env) = records env
    ∧ (failure = None ↔ snd (fst (call (world env))) = None)
    ∧ (∀ e, snd (fst (call (world env))) = Some e →
            failure = Some (fmt.Errorf_w prefix e)).

End Core.

(** The warnings among log records *)
Definition is_warning (r : slog.Record_) : bool :=
  match slog.level r with
  | slog.LevelWarn => true
  | _ => false
  end.

Definition warnings (rs : list slog.Record_) : list slog.Record_ :=
  List.filter is_warning rs.

(** An attribute map gives no value for [key]: it is the nil map, or
    has no entry for the key (as the empty map), or has the empty
    string there. *)
Definition no_value (attributes : option (gmap string string)) (key : string) : Prop :=
  attributes = None ∨
  ∃ m, attributes = Some m ∧ (m !! key = None ∨ m !! key = Some "").

(** [e] is an error of dynamic type [t], or reaches one by unwrapping
    through errors that are not API errors themselves: this is how the
    SDK hands a service exception to its caller, inside an operation
    error and a response error. *)
Inductive carries (t : ErrorType) : error → Prop :=
| carries_here msg u :
    carries t (mkError t msg u)
| carries_inside t' msg inner :
    implements_APIError t' = false →
    carries t inner →
    carries t (mkError t' msg (Some inner)).

(** The statuses that [isTaskActive] takes for a task on its way out *)
Definition stopping_statuses : list string :=
  ["DEACTIVATING"; "STOPPING"; "DEPROVISIONING"; "STOPPED"; "DELETED"].

(** ** A scripted provider

    For running the functions on concrete inputs: every operation
    answers with a fixed response and appends its name to the journal
    that serves as the provider's state. *)

Module script.
Definition Journal := list string.

Definition canned {I O : Type} (name : string) (r : option O * option error)
  : Operation (World:=Journal) (Ctx:=unit) I O :=
  λ _ _ journal, (r, journal ++ [name]).

Definition ecs_client
    (tasks : option ecs.DescribeTasksOutput * option error)
    (definition : option ecs.DescribeTaskDefinitionOutput * option error)
    (stop deregister : option error) : ecs_Client :=
  mkEcsClient
    (canned "DescribeTasks" tasks)
    (canned "DescribeTaskDefinition" definition)
    (canned "StopTask" (Some (ecs.mkStopTaskOutput None), stop))
    (canned "DeregisterTaskDefinition"
       (Some (ecs.mkDeregisterTaskDefinitionOutput None), deregister)).

Definition sns_client
    (attributes : option sns.GetSubscriptionAttributesOutput * option error)
    (unsubscribe : option error) : sns_Client :=
  mkSnsClient
    (canned "GetSubscriptionAttributes" attributes)
    (canned "Unsubscribe" (Some sns.mkUnsubscribeOutput, unsubscribe)).

Definition sqs_client
    (attributes : option sqs.GetQueueAttributesOutput * option error)
    (delete : option error) : sqs_Client :=
  mkSqsClient
    (canned "GetQueueAttributes" attributes)
    (canned "DeleteQueue" (Some sqs.mkDeleteQueueOutput, delete)).

Definition ec2_client
    (instances : option ec2.DescribeInstancesOutput * option error) : ec2_Client :=
  mkEc2Client (canned "DescribeInstances" instances).

(** Clients of a provider that knows of no resource and fails nowhere *)
Definition quiet_ecs : ecs_Client :=
  ecs_client (Some (ecs.mkDescribeTasksOutput []), None)
             (Some (ecs.mkDescribeTaskDefinitionOutput None), None) None None.
Definition quiet_sns : sns_Client :=
  sns_client (Some (sns.mkGetSubscriptionAttributesOutput (Some ∅)), None) None.
Definition quiet_sqs : sqs_Client :=
  sqs_client (Some (sqs.mkGetQueueAttributesOutput (Some ∅)), None) None.
Definition quiet_ec2 : ec2_Client :=
  ec2_client (Some (ec2.mkDescribeInstancesOutput []), None).

(** The provider in which every call fails with [e] *)
Definition failing (e : error) : aws_Config :=
  mkConfig (ecs_client (None, Some e) (None, Some e) (Some e) (Some e))
           (sns_client (None, Some e) (Some e))
           (sqs_client (None, Some e) (Some e))
           (ec2_client (None, Some e)).

Definition start : Env (World:=Journal) := mkEnv [] [].

(** A service exception of type [t] as the SDK returns it *)
Definition sdk_error (operation : string) (t : ErrorType) (text : string) : error :=
  mkError smithy_OperationError ("operation error " +:+ operation +:+ ": " +:+ text)
    (Some (mkError http_ResponseError text
       (Some (mkError t text None)))).

Definition throttled : error :=
  sdk_error "ECS: DescribeTasks" smithy_GenericAPIError
    "api error ThrottlingException: Rate exceeded".

(** The error of a cancelled context: no API error anywhere *)
Definition cancelled : error :=
  mkError smithy_OperationError "operation error: context canceled"
    (Some (mkError (other_type "*errors.errorString" false) "context canceled" None)).
(** The exceptions by which the two services say that the resource
    asked about does not exist *)
Definition subscription_gone : error :=
  sdk_error "SNS: GetSubscriptionAttributes" sns_NotFoundException
    "NotFound: Subscription does not exist".
Definition queue_gone : error :=
  sdk_error "SQS: GetQueueAttributes" sqs_QueueDoesNotExist
    "QueueDoesNotExist: The specified queue does not exist.".

(** Providers that answer one kind of query in a given way *)
Definition with_tasks (tasks : list ecstypes.Task) : aws_Config :=
  mkConfig
    (ecs_client (Some (ecs.mkDescribeTasksOutput tasks), None)
                (Some (ecs.mkDescribeTaskDefinitionOutput None), None) None None)
    quiet_sns quiet_sqs quiet_ec2.
Definition with_definition (td : option ecstypes.TaskDefinition) : aws_Config :=
  mkConfig
    (ecs_client (Some (ecs.mkDescribeTasksOutput []), None)
                (Some (ecs.mkDescribeTaskDefinitionOutput td), None) None None)
    quiet_sns quiet_sqs quiet_ec2.
Definition with_subscription
    (r : option sns.GetSubscriptionAttributesOutput * option error) : aws_Config :=
  mkConfig quiet_ecs (sns_client r None) quiet_sqs quiet_ec2.
Definition with_queue
    (r : option sqs.GetQueueAttributesOutput * option error) : aws_Config :=
  mkConfig quiet_ecs quiet_sns (sqs_client r None) quiet_ec2.
Definition with_instances (rs : list ec2types.Reservation) : aws_Config :=
  mkConfig quiet_ecs quiet_sns quiet_sqs
    (ec2_client (Some (ec2.mkDescribeInstancesOutput rs), None)).

(** The identifiers of the scenarios *)
Definition demo_cluster : string := "arn:aws:ecs:cluster/demo".
Definition demo_task : string := "arn:aws:ecs:task/123".
Definition demo_definition : string :=
  "arn:aws:ecs:eu-west-1:123456789012:task-definition/foo:3".
Definition demo_subscription : string :=
  "arn:aws:sns:eu-west-1:123456789012:requests:6b0e71bd".
Definition demo_queue : string :=
  "https://sqs.eu-west-1.amazonaws.com/123456789012/q1".
Definition demo_instance : string := "i-0123".

(** A response that lists, before and after the task asked about,
    entries the loop has to deal with: one without ARN, one of another
    task, and a second entry for the same task. *)
Definition demo_tasks (status : option string) : list ecstypes.Task :=
  [ ecstypes.mkTask None (Some "STOPPED");
    ecstypes.mkTask (Some "arn:aws:ecs:task/999") (Some "STOPPED");
    ecstypes.mkTask (Some demo_task) status;
    ecstypes.mkTask (Some demo_task) (Some "RUNNING") ].
End script.

(** ** Running docker

    The image helpers of [cmd/thunderdome/build] start the docker
    client as a child process and wait for it.  What they use of
    [os/exec] is modelled here; the operating system is a parameter, as
    the provider is above. *)

Module strings.
(** [strings.Join] *)
Fixpoint Join (elems : list string) (sep : string) : string :=
  match elems with
  | [] => ""
  | [x] => x
  | x :: rest => x +:+ sep +:+ Join rest sep
  end.
End strings.

(** The writers the helpers give to the child *)
Inductive Writer := io_Discard | os_Stderr.

Module exec.
(** [exec.Cmd], the fields in use: [Stdout] and [Stderr] are nil
    ([None]) until set, [Err] holds the failed lookup of the program. *)
Record Cmd := mkCmd {
  Path : string;
  Args : list string;
  Dir : string;
  Stdout : option Writer;
  Stderr : option Writer;
  Err : option error
}.

Definition set_Dir (dir : string) (c : Cmd) : Cmd :=
  mkCmd (Path c) (Args c) dir (Stdout c) (Stderr c) (Err c).
Definition set_Stdout (w : Writer) (c : Cmd) : Cmd :=
  mkCmd (Path c) (Args c) (Dir c) (Some w) (Stderr c) (Err c).
Definition set_Stderr (w : Writer) (c : Cmd) : Cmd :=
  mkCmd (Path c) (Args c) (Dir c) (Stdout c) (Some w) (Err c).

(** [Cmd.String]: the arguments as given when the program was not
    found, else the path found followed by the arguments after the
    first. *)
Definition String (c : Cmd) : string :=
  match Err c with
  | Some _ => strings.Join (Args c) " "
  | None => Path c +:+ String.concat "" (map (λ a, " " +:+ a) (tail (Args c)))
  end.
End exec.

Section Docker.
Context {World : Type}.

(** The operating system: looking a program up on the search path,
    starting a child process and waiting for it to end. *)
Record System := mkSystem {
  LookPath : string → World → string * option error;
  StartProcess : exec.Cmd → World → option error * World;
  WaitProcess : exec.Cmd → World → option error * World
}.

(** [exec.Command] for a program name without directory part, as
    "docker" is: the name is looked up; a path found replaces the name
    as [Path], a failure is kept in [Err]. *)
Definition exec_Command (sys : System) (name : string) (arg : list string)
  : Go (World:=World) exec.Cmd :=
  λ env, let '(lp, err) := LookPath sys name (world env) in
         (Done (exec.mkCmd (if String.eqb lp "" then name else lp)
                  (name :: arg) "" None None err), env).

(** [Cmd.Start]: the error of the lookup if there was one, without
    starting anything; else what starting the process gives. *)
Definition Cmd_Start (sys : System) (c : exec.Cmd) : Go (World:=World) (option error) :=
  match exec.Err c with
  | Some err => mret (Some err)
  | None =>
      λ env, let '(err, w) := StartProcess sys c (world env) in
             (Done err, mkEnv w (records env))
  end.

(** [Cmd.Wait] on a started command *)
Definition Cmd_Wait (sys : System) (c : exec.Cmd) : Go (World:=World) (option error) :=
  λ env, let '(err, w) := WaitProcess sys c (world env) in
         (Done err, mkEnv w (records env)).

(** [slog.Debug] of the default logger *)
Definition slog_Debug (msg : string) : Go (World:=World) unit :=
  emit slog.LevelDebug [] msg [].

Definition DockerBuild (sys : System) (gitRepoDir imageName : string)
  : Go (option error) :=
  cmd ← exec_Command sys "docker" ["build"; "-t"; imageName; "."];
  let cmd := exec.set_Dir gitRepoDir cmd in
  let cmd := exec.set_Stdout io_Discard cmd in
  let cmd := exec.set_Stderr os_Stderr cmd in
  slog_Debug (exec.String cmd);;
  err ← Cmd_Start sys cmd;
  match err with
  | Some err => mret (Some err)
  | None => Cmd_Wait sys cmd
  end.

Definition DockerTag (sys : System) (srcImageName dstImageName : string)
  : Go (option error) :=
  cmd ← exec_Command sys "docker" ["tag"; srcImageName; dstImageName];
  let cmd := exec.set_Stdout io_Discard cmd in
  let cmd := exec.set_Stderr os_Stderr cmd in
  slog_Debug (exec.String cmd);;
  err ← Cmd_Start sys cmd;
  match err with
  | Some err => mret (Some err)
  | None => Cmd_Wait sys cmd
  end.

Definition DockerPush (sys : System) (imageName : string) : Go (option error) :=
  cmd ← exec_Command sys "docker" ["push"; imageName];
  let cmd := exec.set_Stdout io_Discard cmd in
  let cmd := exec.set_Stderr os_Stderr cmd in
  slog_Debug (exec.String cmd);;
  err ← Cmd_Start sys cmd;
  match err with
  | Some err => mret (Some err)
  | None => Cmd_Wait sys cmd
  end.

Definition DockerInspect (sys : System) (imageName : string) : Go (option error) :=
  cmd ← exec_Command sys "docker" ["manifest"; "inspect"; imageName];
  let cmd := exec.set_Stdout io_Discard cmd in
  let cmd := exec.set_Stderr os_Stderr cmd in
  slog_Debug (exec.String cmd);;
  err ← Cmd_Start sys cmd;
  match err with
  | Some err => mret (Some err)
  | None => Cmd_Wait sys cmd
  end.

(** A helper [runs] docker with the arguments [arg] in the directory
    [dir] when, docker being found on the search path, it starts one
    process with these arguments and this directory, its output
    discarded and its errors on the standard error stream, after
    logging the command line; returns the
    error of the start, without waiting, when the start fails; and
    otherwise waits once and returns what the wait returns. *)
Definition runs (sys : System) (helper : Go (option error))
    (arg : list string) (dir : string) : Prop :=
  ∀ env lp,
    LookPath sys "docker" (world env) = (lp, None) →
    ∃ cmd,
      exec.Args cmd = "docker" :: arg
      ∧ exec.Dir cmd = dir
      ∧ exec.Stdout cmd = Some io_Discard
      ∧ exec.Stderr cmd = Some os_Stderr
      ∧ emitted helper env = [slog.mkRecord slog.LevelDebug (exec.String cmd) []]
      ∧ match StartProcess sys cmd (world env) with
        | (Some e, w) =>
            result helper env = Done (Some e) ∧ world (after helper env) = w
        | (None, w) =>
            result helper env = Done (fst (WaitProcess sys cmd w))
            ∧ world (after helper env) = snd (WaitProcess sys cmd w)
        end.

(** A helper [needs_docker] when, docker not being found, it returns
    the error of the lookup as it is, touches nothing, and has logged
    the command [line] it was about to run. *)
Definition needs_docker (sys : System) (helper : Go (option error))
    (line : string) : Prop :=
  ∀ env lp e,
    LookPath sys "docker" (world env) = (lp, Some e) →
    result helper env = Done (Some e)
    ∧ world (after helper env) = world env
    ∧ emitted helper env = [slog.mkRecord slog.LevelDebug line []].

End Docker.

(** A scripted operating system: docker is or is not on the search
    path, starting and waiting answer as told, and both are noted in
    the journal with the command line. *)
Module shell.
Definition docker_missing : error :=
  mkError (other_type "*exec.Error" false)
    "exec: docker: executable file not found in $PATH"
    (Some (mkError (other_type "*errors.errorString" false)
             "executable file not found in $PATH" None)).

Definition exit_status_1 : error :=
  mkError (other_type "*exec.ExitError" false) "exit status 1" None.

Definition system (installed : bool) (start wait : option error)
  : System (World:=script.Journal) :=
  mkSystem
    (λ name _, if installed then ("/usr/bin/" +:+ name, None)
               else ("", Some docker_missing))
    (λ c journal, (start, journal ++ ["start " +:+ strings.Join (exec.Args c) " "]))
    (λ c journal, (wait, journal ++ ["wait " +:+ strings.Join (exec.Args c) " "])).
End shell.

(** * Properties *)

(** ** Running the computations *)

Ltac go_unfold :=
  unfold emitted in *;
  unfold result, after, tasks_answer, definition_answer,
    subscription_answer, queue_answer, instances_answer,
    isTaskActive, isTaskDefinitionActive, isSnsSubscriptionActive,
    isSqsQueueActive, isEc2InstanceActive, stopEcsTask,
    deregisterEcsTaskDefinition, unsubscribeSqsQueue, deleteSqsQueue,
    invoke, Logger_Debug, Logger_Warn, emit, deref, panic, slog.With,
    sqstypes.QueueAttributeNameQueueArn, sqstypes.QueueAttributeName in *;
  unfold mbind, mret, Go_bind, Go_ret in *; simpl in *.

Ltac go_answer H := go_unfold; rewrite H; simpl.

Section Errors.

(** An API error at the head of the chain is what [errors.As] finds. *)
Lemma As_APIError_carries t e :
  implements_APIError t = true →
  carries t e →
  ∃ found, errors.As_APIError e = Some found ∧ etype found = t.
Proof.
  intros Hapi Hc. induction Hc as [msg u | t' msg inner Hno _ IH].
  - exists (mkError t msg u). simpl. rewrite Hapi. done.
  - destruct IH as (found & Hfound & Hty).
    exists found. simpl. rewrite Hno. done.
Qed.

(** Induction along the [Unwrap] chain *)
Lemma error_chain_ind (P : error → Prop) :
  (∀ t msg, P (mkError t msg None)) →
  (∀ t msg inner, P inner → P (mkError t msg (Some inner))) →
  ∀ e, P e.
Proof.
  intros Hend Hwrap. fix rec 1.
  intros [t msg [inner|]].
  - apply Hwrap, rec.
  - apply Hend.
Qed.

Lemma As_APIError_found e found :
  errors.As_APIError e = Some found →
  implements_APIError (etype found) = true ∧ carries (etype found) e.
Proof.
  induction e as [t msg | t msg inner IH] using error_chain_ind; simpl.
  - destruct (implements_APIError t) eqn:Hapi; [|done].
    intros [= <-]. simpl. split; [done | constructor].
  - destruct (implements_APIError t) eqn:Hapi.
    + intros [= <-]. simpl. split; [done | constructor].
    + intros Hin. destruct (IH Hin) as [? ?].
      split; [done | by constructor].
Qed.

(** The not-found test of the two attribute checks, read off the
    chain: it holds of the errors that carry an SNS not-found
    exception, and of no others. *)
Lemma is_sns_NotFoundException_carries e :
  is_sns_NotFoundException e = true ↔ carries sns_NotFoundException e.
Proof.
  unfold is_sns_NotFoundException. split.
  - destruct (errors.As_APIError e) as [found|] eqn:Hfound; [|done].
    apply As_APIError_found in Hfound as [_ Hc].
    destruct (etype found); done.
  - intros Hc. apply As_APIError_carries in Hc as (found & -> & ->); done.
Qed.

(** An error that carries another API error is not taken for an SNS
    not-found exception. *)
Lemma is_sns_NotFoundException_other t e :
  implements_APIError t = true →
  t ≠ sns_NotFoundException →
  carries t e →
  is_sns_NotFoundException e = false.
Proof.
  intros Hapi Hne Hc. unfold is_sns_NotFoundException.
  apply As_APIError_carries in Hc as (found & -> & Hty); [|done].
  rewrite Hty. destruct t; done.
Qed.

End Errors.

Section Liveness.
Context {World Ctx : Type}.
Implicit Types (ctx : Ctx) (cfg : aws_Config (World:=World) (Ctx:=Ctx)).
Implicit Types (env : Env (World:=World)) (e err : error).

(** *** The task loop *)

Lemma stopping_status_elem (status : string) :
  stopping_status status = true ↔ status ∈ stopping_statuses.
Proof.
  unfold stopping_status, stopping_statuses.
  rewrite !orb_true_iff, !String.eqb_eq, !elem_of_cons, elem_of_nil.
  tauto.
Qed.

Lemma task_matches_false (taskArn : string) (ta : ecstypes.Task) :
  ecstypes.TaskArn ta ≠ Some taskArn → task_matches taskArn ta = false.
Proof.
  unfold task_matches. destruct (ecstypes.TaskArn ta) as [a|]; [|done].
  intros Hne. apply String.eqb_neq. congruence.
Qed.

Lemma task_matches_true (taskArn : string) (ta : ecstypes.Task) :
  ecstypes.TaskArn ta = Some taskArn → task_matches taskArn ta = true.
Proof. unfold task_matches. intros ->. apply String.eqb_refl. Qed.

(** The loop passes over entries with another ARN, or none. *)
Lemma rangeTasks_skip logger (taskArn : string) (pre rest : list ecstypes.Task) :
  Forall (λ ta, ecstypes.TaskArn ta ≠ Some taskArn) pre →
  rangeTasks (World:=World) logger taskArn (pre ++ rest)
  = rangeTasks logger taskArn rest.
Proof.
  induction 1 as [|ta pre Hta _ IH]; [done|].
  simpl. by rewrite task_matches_false.
Qed.

(** It returns at the first entry with the ARN, whatever follows. *)
Lemma rangeTasks_hit logger (taskArn : string) (ta : ecstypes.Task)
    (post : list ecstypes.Task) env :
  ecstypes.TaskArn ta = Some taskArn →
  fst (rangeTasks logger taskArn (ta :: post) env)
  = Done (Some (match ecstypes.LastStatus ta with
                | Some status => negb (bool_decide (status ∈ stopping_statuses))
                | None => true
                end, None)).
Proof.
  intros Harn. simpl. rewrite task_matches_true by done.
  destruct (ecstypes.LastStatus ta) as [status|]; [|done].
  go_unfold. destruct (stopping_status status) eqn:Hs; simpl.
  - apply stopping_status_elem in Hs. by rewrite bool_decide_eq_true_2.
  - rewrite bool_decide_eq_false_2; [done|].
    rewrite <-stopping_status_elem. congruence.
Qed.

(** Whatever it returns from inside the loop carries no error. *)
Lemma rangeTasks_no_error logger (taskArn : string) (tasks : list ecstypes.Task)
    env b (failure : option error) :
  fst (rangeTasks logger taskArn tasks env) = Done (Some (b, failure)) →
  failure = None.
Proof.
  induction tasks as [|ta rest IH]; simpl; [done|].
  destruct (task_matches taskArn ta); [|done].
  go_unfold.
  destruct (ecstypes.LastStatus ta) as [status|]; simpl.
  - destruct (stopping_status status); simpl; congruence.
  - congruence.
Qed.

Lemma rangeTasks_miss logger (taskArn : string) (tasks : list ecstypes.Task) env :
  Forall (λ ta, ecstypes.TaskArn ta ≠ Some taskArn) tasks →
  rangeTasks logger taskArn tasks env = (Done None, env).
Proof.
  intros Hall. rewrite <-(app_nil_r tasks).
  by rewrite rangeTasks_skip.
Qed.

(** *** [isTaskActive] after a query that succeeded *)

(** The verdict is what the loop returned, or "inactive" when the
    loop ran to its end. *)
Lemma isTaskActive_answered ctx cfg (cluster task : string) env out w :
  tasks_answer ctx cfg cluster task env = ((Some out, None), w) →
  ∃ env',
    result (isTaskActive ctx cfg cluster task) env
    = match fst (rangeTasks [("arn", task); ("cluster_arn", cluster)] task
                   (ecs.Tasks out) env') with
      | Done (Some v) => Done v
      | Done None => Done (false, None)
      | Panic r => Panic r
      end.
Proof.
  intros Hanswer. go_answer Hanswer.
  match goal with
  | |- context [rangeTasks ?l ?t ?ts ?en] =>
      exists en; destruct (rangeTasks l t ts en) as [[[v|]|r] env']
  end; done.
Qed.

Lemma isTaskActive_first_match ctx cfg (cluster task : string) env out w
    (pre post : list ecstypes.Task) (ta : ecstypes.Task) :
  tasks_answer ctx cfg cluster task env = ((Some out, None), w) →
  ecs.Tasks out = pre ++ ta :: post →
  Forall (λ t, ecstypes.TaskArn t ≠ Some task) pre →
  ecstypes.TaskArn ta = Some task →
  result (isTaskActive ctx cfg cluster task) env
  = Done (match ecstypes.LastStatus ta with
          | Some status => negb (bool_decide (status ∈ stopping_statuses))
          | None => true
          end, None).
Proof.
  intros Hanswer Htasks Hpre Harn.
  destruct (isTaskActive_answered _ _ _ _ _ _ _ Hanswer) as [env' ->].
  by rewrite Htasks, rangeTasks_skip, rangeTasks_hit.
Qed.

Lemma isTaskActive_no_match ctx cfg (cluster task : string) env out w :
  tasks_answer ctx cfg cluster task env = ((Some out, None), w) →
  Forall (λ t, ecstypes.TaskArn t ≠ Some task) (ecs.Tasks out) →
  result (isTaskActive ctx cfg cluster task) env = Done (false, None).
Proof.
  intros Hanswer Hall.
  destruct (isTaskActive_answered _ _ _ _ _ _ _ Hanswer) as [env' ->].
  by rewrite rangeTasks_miss.
Qed.

(** *** A failed query *)

Lemma isTaskActive_query_error ctx cfg (cluster task : string) env out e w :
  tasks_answer ctx cfg cluster task env = ((out, Some e), w) →
  result (isTaskActive ctx cfg cluster task) env
  = Done (true, Some (fmt.Errorf_w "describe tasks: " e)).
Proof. intros Hanswer. by go_answer Hanswer. Qed.

Lemma isTaskDefinitionActive_query_error ctx cfg (arn : string) env out e w :
  definition_answer ctx cfg arn env = ((out, Some e), w) →
  result (isTaskDefinitionActive ctx cfg arn) env
  = Done (true, Some (fmt.Errorf_w "describe task definition: " e)).
Proof. intros Hanswer. by go_answer Hanswer. Qed.

Lemma isSnsSubscriptionActive_query_error ctx cfg (arn : string) env out e w :
  subscription_answer ctx cfg arn env = ((out, Some e), w) →
  result (isSnsSubscriptionActive ctx cfg arn) env
  = if is_sns_NotFoundException e then Done (false, None)
    else Done (true, Some (fmt.Errorf_w "get subscription attributes: " e)).
Proof.
  intros Hanswer. go_answer Hanswer.
  by destruct (is_sns_NotFoundException e).
Qed.

Lemma isSqsQueueActive_query_error ctx cfg (url : string) env out e w :
  queue_answer ctx cfg url env = ((out, Some e), w) →
  result (isSqsQueueActive ctx cfg url) env
  = if is_sns_NotFoundException e then Done (false, None)
    else Done (true, Some (fmt.Errorf_w "get subscription attributes: " e)).
Proof.
  intros Hanswer. go_answer Hanswer.
  by destruct (is_sns_NotFoundException e).
Qed.

Lemma isEc2InstanceActive_query_error ctx cfg (id : string) env out e w :
  instances_answer ctx cfg id env = ((out, Some e), w) →
  result (isEc2InstanceActive ctx cfg id) env
  = Done (true, Some (fmt.Errorf_w "describe ec2 instances: " e)).
Proof. intros Hanswer. by go_answer Hanswer. Qed.

(** *** No "inactive" next to an error *)

Ltac go_cases :=
  repeat (simpl in *; case_match); simpl in *; try congruence.

Lemma isTaskActive_error_means_active ctx cfg (cluster task : string) :
  error_means_active (isTaskActive ctx cfg cluster task).
Proof.
  intros env b failure.
  destruct (tasks_answer ctx cfg cluster task env) as [[out [e|]] w] eqn:Hanswer.
  - rewrite (isTaskActive_query_error _ _ _ _ _ _ _ _ Hanswer). congruence.
  - destruct out as [out|].
    + destruct (isTaskActive_answered _ _ _ _ _ _ _ Hanswer) as [env' ->].
      destruct (fst (rangeTasks _ _ _ env')) as [[[b' failure']|]|r] eqn:Hloop;
        [|done..].
      apply rangeTasks_no_error in Hloop. congruence.
    + by go_answer Hanswer.
Qed.

Lemma isTaskDefinitionActive_error_means_active ctx cfg (arn : string) :
  error_means_active (isTaskDefinitionActive ctx cfg arn).
Proof.
  intros env b failure. go_unfold.
  destruct (DescribeTaskDefinition _ _ _ _) as [[out [e|]] w]; go_cases.
Qed.

Lemma isSnsSubscriptionActive_error_means_active ctx cfg (arn : string) :
  error_means_active (isSnsSubscriptionActive ctx cfg arn).
Proof.
  intros env b failure. go_unfold.
  destruct (GetSubscriptionAttributes _ _ _ _) as [[out [e|]] w]; go_cases.
Qed.

Lemma isSqsQueueActive_error_means_active ctx cfg (url : string) :
  error_means_active (isSqsQueueActive ctx cfg url).
Proof.
  intros env b failure. go_unfold.
  destruct (GetQueueAttributes _ _ _ _) as [[out [e|]] w]; go_cases.
Qed.

Lemma isEc2InstanceActive_error_means_active ctx cfg (id : string) :
  error_means_active (isEc2InstanceActive ctx cfg id).
Proof.
  intros env b failure. go_unfold.
  destruct (DescribeInstances _ _ _ _) as [[out [e|]] w]; go_cases.
Qed.

(** *** The claims about failed queries and about tasks *)

(** C1. Whenever the query behind a liveness check returns an error that
    the check does not classify as not-found, the check returns the
    verdict "active" together with a non-nil error, namely the query's
    error wrapped once.  The task, task-definition and instance checks
    classify no error as not-found; the subscription and queue checks
    classify those that [is_sns_NotFoundException] accepts.  And no check
    ever returns "inactive" next to an error. *)
Theorem failed_query_reads_active ctx cfg env e :
  (∀ cluster task out w,
     tasks_answer ctx cfg cluster task env = ((out, Some e), w) →
     result (isTaskActive ctx cfg cluster task) env
     = Done (true, Some (fmt.Errorf_w "describe tasks: " e)))
  ∧ (∀ arn out w,
     definition_answer ctx cfg arn env = ((out, Some e), w) →
     result (isTaskDefinitionActive ctx cfg arn) env
     = Done (true, Some (fmt.Errorf_w "describe task definition: " e)))
  ∧ (∀ arn out w,
     subscription_answer ctx cfg arn env = ((out, Some e), w) →
     is_sns_NotFoundException e = false →
     result (isSnsSubscriptionActive ctx cfg arn) env
     = Done (true, Some (fmt.Errorf_w "get subscription attributes: " e)))
  ∧ (∀ url out w,
     queue_answer ctx cfg url env = ((out, Some e), w) →
     is_sns_NotFoundException e = false →
     result (isSqsQueueActive ctx cfg url) env
     = Done (true, Some (fmt.Errorf_w "get subscription attributes: " e)))
  ∧ (∀ id out w,
     instances_answer ctx cfg id env = ((out, Some e), w) →
     result (isEc2InstanceActive ctx cfg id) env
     = Done (true, Some (fmt.Errorf_w "describe ec2 instances: " e)))
  ∧ (∀ cluster task, error_means_active (isTaskActive ctx cfg cluster task))
  ∧ (∀ arn, error_means_active (isTaskDefinitionActive ctx cfg arn))
  ∧ (∀ arn, error_means_active (isSnsSubscriptionActive ctx cfg arn))
  ∧ (∀ url, error_means_active (isSqsQueueActive ctx cfg url))
  ∧ (∀ id, error_means_active (isEc2InstanceActive ctx cfg id)).
Proof.
  repeat apply conj.
  - intros. by eapply isTaskActive_query_error.
  - intros. by eapply isTaskDefinitionActive_query_error.
  - intros arn out w Hanswer Hclass.
    rewrite (isSnsSubscriptionActive_query_error _ _ _ _ _ _ _ Hanswer).
    by rewrite Hclass.
  - intros url out w Hanswer Hclass.
    rewrite (isSqsQueueActive_query_error _ _ _ _ _ _ _ Hanswer).
    by rewrite Hclass.
  - intros. by eapply isEc2InstanceActive_query_error.
  - apply isTaskActive_error_means_active.
  - apply isTaskDefinitionActive_error_means_active.
  - apply isSnsSubscriptionActive_error_means_active.
  - apply isSqsQueueActive_error_means_active.
  - apply isEc2InstanceActive_error_means_active.
Qed.

(** C3. After a task query that succeeded, when the entry the loop stops
    at (the first one whose ARN is the queried ARN) has a readable status,
    the verdict comes without error and is "inactive" exactly when that
    status is one of DEACTIVATING, STOPPING, DEPROVISIONING, STOPPED and
    DELETED, and "active" for every other status. *)
Theorem task_status_decides_verdict ctx cfg (cluster task : string) env out w
    (pre post : list ecstypes.Task) (ta : ecstypes.Task) (status : string) :
  tasks_answer ctx cfg cluster task env = ((Some out, None), w) →
  ecs.Tasks out = pre ++ ta :: post →
  Forall (λ t, ecstypes.TaskArn t ≠ Some task) pre →
  ecstypes.TaskArn ta = Some task →
  ecstypes.LastStatus ta = Some status →
  ∃ verdict,
    result (isTaskActive ctx cfg cluster task) env = Done (verdict, None)
    ∧ (verdict = false ↔
       status ∈ ["DEACTIVATING"; "STOPPING"; "DEPROVISIONING"; "STOPPED"; "DELETED"])
    ∧ (verdict = true ↔
       status ∉ ["DEACTIVATING"; "STOPPING"; "DEPROVISIONING"; "STOPPED"; "DELETED"]).
Proof.
  intros Hanswer Htasks Hpre Harn Hstatus.
  rewrite (isTaskActive_first_match _ _ _ _ _ _ _ _ _ _ Hanswer Htasks Hpre Harn).
  rewrite Hstatus. eexists. split; [done|].
  fold stopping_statuses.
  destruct (decide (status ∈ stopping_statuses)) as [Hin|Hout].
  - rewrite bool_decide_eq_true_2 by done. simpl. split; split; done.
  - rewrite bool_decide_eq_false_2 by done. simpl. split; split; done.
Qed.

(** C9. After a task query that succeeded, the verdict is read off the
    first entry whose ARN is the queried ARN and off nothing else:
    entries before it with another ARN or none are passed over, whatever
    follows it is not looked at, and the verdict is "active" without error
    when its status cannot be read.  When no entry has the ARN the verdict
    is "inactive" without error. *)
Theorem first_matching_task_decides ctx cfg (cluster task : string) env out w :
  tasks_answer ctx cfg cluster task env = ((Some out, None), w) →
  (Forall (λ t, ecstypes.TaskArn t ≠ Some task) (ecs.Tasks out) →
   result (isTaskActive ctx cfg cluster task) env = Done (false, None))
  ∧ (∀ (pre post : list ecstypes.Task) (ta : ecstypes.Task),
       ecs.Tasks out = pre ++ ta :: post →
       Forall (λ t, ecstypes.TaskArn t ≠ Some task) pre →
       ecstypes.TaskArn ta = Some task →
       result (isTaskActive ctx cfg cluster task) env
       = Done (match ecstypes.LastStatus ta with
               | Some status => negb (bool_decide (status ∈ stopping_statuses))
               | None => true
               end, None)
       ∧ (ecstypes.LastStatus ta = None →
          result (isTaskActive ctx cfg cluster task) env = Done (true, None))).
Proof.
  intros Hanswer. split.
  - intros Hall. by eapply isTaskActive_no_match.
  - intros pre post ta Htasks Hpre Harn.
    rewrite (isTaskActive_first_match _ _ _ _ _ _ _ _ _ _ Hanswer Htasks Hpre Harn).
    split; [done|]. by intros ->.
Qed.

(** *** Task definitions *)

Lemma definition_matches_spec (arn : string) (td : ecstypes.TaskDefinition) :
  definition_matches arn td = true ↔ ecstypes.TaskDefinitionArn td = Some arn.
Proof.
  unfold definition_matches.
  destruct (ecstypes.TaskDefinitionArn td) as [a|]; [|done].
  rewrite String.eqb_eq. split; congruence.
Qed.

(** C4. After a task-definition query that succeeded, the verdict comes
    without error and is "active" exactly when the response holds a
    definition whose ARN is the queried reference and whose status is the
    ACTIVE value of the enum; with no definition, another ARN or another
    status it is "inactive". *)
Theorem definition_active_iff ctx cfg (arn : string) env out w :
  definition_answer ctx cfg arn env = ((Some out, None), w) →
  ∃ verdict,
    result (isTaskDefinitionActive ctx cfg arn) env = Done (verdict, None)
    ∧ (verdict = true ↔
       ∃ td, ecs.TaskDefinition out = Some td
             ∧ ecstypes.TaskDefinitionArn td = Some arn
             ∧ ecstypes.Status td = ecstypes.TaskDefinitionStatusActive).
Proof.
  intros Hanswer. go_answer Hanswer.
  destruct (ecs.TaskDefinition out) as [td|]; simpl.
  - destruct (definition_matches arn td) eqn:Harn.
    + apply definition_matches_spec in Harn.
      destruct (String.eqb (ecstypes.Status td) _) eqn:Hstatus; simpl.
      * apply String.eqb_eq in Hstatus. exists true. split; [done|].
        split; [|done]. intros _. by exists td.
      * apply String.eqb_neq in Hstatus. exists false. split; [done|].
        split; [done|]. intros (td' & [= <-] & _ & ?). done.
    + exists false. split; [done|]. split; [done|].
      intros (td' & [= <-] & Harn' & _).
      apply definition_matches_spec in Harn'. congruence.
  - exists false. split; [done|]. split; [done|]. by intros (td & ? & _).
Qed.

(** *** Subscriptions and queues *)

(** C5. When the subscription-attributes query fails with an error that
    carries the SNS not-found exception, the subscription check returns
    "inactive" and no error. *)
Theorem subscription_not_found_is_inactive ctx cfg (arn : string) env out e w :
  subscription_answer ctx cfg arn env = ((out, Some e), w) →
  carries sns_NotFoundException e →
  result (isSnsSubscriptionActive ctx cfg arn) env = Done (false, None).
Proof.
  intros Hanswer Hcarries.
  rewrite (isSnsSubscriptionActive_query_error _ _ _ _ _ _ _ Hanswer).
  apply is_sns_NotFoundException_carries in Hcarries. by rewrite Hcarries.
Qed.

Lemma no_value_index (m : gmap string string) (key : string) :
  no_value (Some m) key → map_index m key = "".
Proof.
  unfold map_index. intros [?|(m' & [= <-] & [-> | ->])]; done.
Qed.

(** C7. When the subscription or queue query succeeds and the attribute
    map of the response is missing or empty, or more generally gives no
    non-empty value under TopicArn (for the queue: QueueArn), the check
    returns "inactive" and no error. *)
Theorem no_attribute_is_inactive ctx cfg env :
  (∀ arn out w,
     subscription_answer ctx cfg arn env = ((Some out, None), w) →
     no_value (sns.Attributes out) "TopicArn" →
     result (isSnsSubscriptionActive ctx cfg arn) env = Done (false, None))
  ∧ (∀ url out w,
     queue_answer ctx cfg url env = ((Some out, None), w) →
     no_value (sqs.Attributes out) "QueueArn" →
     result (isSqsQueueActive ctx cfg url) env = Done (false, None)).
Proof.
  split.
  - intros arn out w Hanswer Hno. go_answer Hanswer.
    destruct (sns.Attributes out) as [m|]; simpl; [|done].
    by rewrite (no_value_index _ _ Hno).
  - intros url out w Hanswer Hno. go_answer Hanswer.
    destruct (sqs.Attributes out) as [m|]; simpl; [|done].
    by rewrite (no_value_index _ _ Hno).
Qed.

(** C10. When the subscription or queue call succeeds with a nil
    response, the check does what it does for a response with an empty
    attribute map: it returns "inactive" and no error, and does not
    panic. *)
Theorem nil_response_is_inactive ctx cfg env :
  (∀ arn w,
     subscription_answer ctx cfg arn env = ((None, None), w) →
     result (isSnsSubscriptionActive ctx cfg arn) env = Done (false, None))
  ∧ (∀ arn out w,
     subscription_answer ctx cfg arn env = ((Some out, None), w) →
     sns.Attributes out = Some ∅ →
     result (isSnsSubscriptionActive ctx cfg arn) env = Done (false, None))
  ∧ (∀ url w,
     queue_answer ctx cfg url env = ((None, None), w) →
     result (isSqsQueueActive ctx cfg url) env = Done (false, None))
  ∧ (∀ url out w,
     queue_answer ctx cfg url env = ((Some out, None), w) →
     sqs.Attributes out = Some ∅ →
     result (isSqsQueueActive ctx cfg url) env = Done (false, None)).
Proof.
  repeat apply conj.
  - intros arn w Hanswer. by go_answer Hanswer.
  - intros arn out w Hanswer Hempty. go_answer Hanswer. by rewrite Hempty.
  - intros url w Hanswer. by go_answer Hanswer.
  - intros url out w Hanswer Hempty. go_answer Hanswer. by rewrite Hempty.
Qed.

(** The queue check takes no SQS exception for "not found": an error
    that carries [*sqstypes.QueueDoesNotExist] is returned like any
    other failure, with the verdict "active". *)
Lemma isSqsQueueActive_queue_does_not_exist ctx cfg (url : string) env out e w :
  queue_answer ctx cfg url env = ((out, Some e), w) →
  carries sqs_QueueDoesNotExist e →
  result (isSqsQueueActive ctx cfg url) env
  = Done (true, Some (fmt.Errorf_w "get subscription attributes: " e)).
Proof.
  intros Hanswer Hcarries.
  rewrite (isSqsQueueActive_query_error _ _ _ _ _ _ _ Hanswer).
  by rewrite (is_sns_NotFoundException_other sqs_QueueDoesNotExist).
Qed.

(** *** Instances *)

(** C6. After an instance query that succeeded, the verdict comes
    without error; it is "inactive" for no reservation, "active" for
    exactly one, both without a warning, and "active" with one warning
    record, which tells the number found, for two or more. *)
Theorem reservations_decide_verdict ctx cfg (id : string) env out w :
  instances_answer ctx cfg id env = ((Some out, None), w) →
  (length (ec2.Reservations out) = 0 →
   result (isEc2InstanceActive ctx cfg id) env = Done (false, None)
   ∧ warnings (emitted (isEc2InstanceActive ctx cfg id) env) = [])
  ∧ (length (ec2.Reservations out) = 1 →
   result (isEc2InstanceActive ctx cfg id) env = Done (true, None)
   ∧ warnings (emitted (isEc2InstanceActive ctx cfg id) env) = [])
  ∧ (2 ≤ length (ec2.Reservations out) →
   result (isEc2InstanceActive ctx cfg id) env = Done (true, None)
   ∧ warnings (emitted (isEc2InstanceActive ctx cfg id) env)
     = [slog.mkRecord slog.LevelWarn
          (fmt.Sprintf_d "unexpected number of instance reservations found: "
             (length (ec2.Reservations out)))
          [("instance_id", id)]]).
Proof.
  intros Hanswer. go_answer Hanswer.
  destruct (length (ec2.Reservations out)) as [|[|n]] eqn:Hlen; simpl;
    rewrite <-?app_assoc, ?drop_app_length; simpl.
  - repeat split; (done || lia).
  - repeat split; (done || lia).
  - repeat split; (done || lia).
Qed.

(** *** Teardown *)

Lemma propagates_intro {I O : Type} (op : Operation (World:=World) (Ctx:=Ctx) I O)
    ctx (i : I) (prefix : string) :
  propagates
    ('(_, err) ← invoke op ctx i;
     match err with
     | Some err => mret (Some (fmt.Errorf_w prefix err))
     | None => mret None
     end)
    (op ctx i) prefix.
Proof.
  intros env. go_unfold.
  destruct (op ctx i (world env)) as [[out [e|]] w]; simpl.
  - eexists. repeat split; try done. by intros e' [= <-].
  - eexists. repeat split; done.
Qed.

(** C8. Each teardown operation makes the one provider call of its
    kind, with the identifiers it was given, and returns an error exactly
    when that call returned one: the call's error, wrapped once, and nil
    when the call succeeded. *)
Theorem teardown_propagates_failure ctx cfg :
  (∀ cluster task,
     propagates (stopEcsTask ctx cfg cluster task)
       (StopTask (ecs_NewFromConfig cfg) ctx
          (ecs.mkStopTaskInput (Some cluster) (Some task)))
       "stop task: ")
  ∧ (∀ arn,
     propagates (deregisterEcsTaskDefinition ctx cfg arn)
       (DeregisterTaskDefinition (ecs_NewFromConfig cfg) ctx
          (ecs.mkDeregisterTaskDefinitionInput (Some arn)))
       "deregister task definition: ")
  ∧ (∀ arn,
     propagates (unsubscribeSqsQueue ctx cfg arn)
       (Unsubscribe (sns_NewFromConfig cfg) ctx (sns.mkUnsubscribeInput (Some arn)))
       "unsubscribe from request topic: ")
  ∧ (∀ url,
     propagates (deleteSqsQueue ctx cfg url)
       (DeleteQueue (sqs_NewFromConfig cfg) ctx (sqs.mkDeleteQueueInput (Some url)))
       "delete queue: ").
Proof.
  repeat apply conj; intros; apply propagates_intro.
Qed.

End Liveness.

(** ** The checks on a scripted provider *)

Section Scenarios.
Import script.

Lemma carries_sdk_error (operation text : string) (t : ErrorType) :
  carries t (sdk_error operation t text).
Proof. unfold sdk_error. repeat constructor. Qed.

(** C2, on the code.  The queue check is asked about a queue that the
    provider reports as not existing, through the SQS exception for it.
    The check answers "active" with an error: its not-found case tests
    for the SNS exception, which a queue query does not return. *)
Theorem queue_does_not_exist_reads_active :
  carries sqs_QueueDoesNotExist queue_gone
  ∧ result (isSqsQueueActive () (with_queue (None, Some queue_gone)) demo_queue) start
    = Done (true, Some (fmt.Errorf_w "get subscription attributes: " queue_gone))
  ∧ result (isSnsSubscriptionActive ()
              (with_subscription (None, Some subscription_gone)) demo_subscription) start
    = Done (false, None).
Proof.
  split; [apply carries_sdk_error|]. split; reflexivity.
Qed.

Lemma failed_query_reads_active_throttled :
  result (isTaskActive () (failing throttled) demo_cluster demo_task) start
  = Done (true, Some (fmt.Errorf_w "describe tasks: " throttled))
  ∧ result (isTaskDefinitionActive () (failing throttled) demo_definition) start
  = Done (true, Some (fmt.Errorf_w "describe task definition: " throttled))
  ∧ result (isSnsSubscriptionActive () (failing throttled) demo_subscription) start
  = Done (true, Some (fmt.Errorf_w "get subscription attributes: " throttled))
  ∧ result (isSqsQueueActive () (failing throttled) demo_queue) start
  = Done (true, Some (fmt.Errorf_w "get subscription attributes: " throttled))
  ∧ result (isEc2InstanceActive () (failing throttled) demo_instance) start
  = Done (true, Some (fmt.Errorf_w "describe ec2 instances: " throttled)).
Proof.
  destruct (failed_query_reads_active () (failing throttled) start throttled)
    as (Htask & Hdef & Hsub & Hqueue & Hinst & _).
  repeat apply conj.
  - eapply Htask. reflexivity.
  - eapply Hdef. reflexivity.
  - eapply Hsub; reflexivity.
  - eapply Hqueue; reflexivity.
  - eapply Hinst. reflexivity.
Defined.

Lemma task_status_decides_verdict_stopped :
  ∃ verdict,
    result (isTaskActive () (with_tasks (demo_tasks (Some "STOPPED")))
              demo_cluster demo_task) start = Done (verdict, None)
    ∧ (verdict = false ↔
       "STOPPED" ∈ ["DEACTIVATING"; "STOPPING"; "DEPROVISIONING"; "STOPPED"; "DELETED"])
    ∧ (verdict = true ↔
       "STOPPED" ∉ ["DEACTIVATING"; "STOPPING"; "DEPROVISIONING"; "STOPPED"; "DELETED"]).
Proof.
  eapply (task_status_decides_verdict () (with_tasks (demo_tasks (Some "STOPPED")))
            demo_cluster demo_task start _ _
            (take 2 (demo_tasks (Some "STOPPED")))
            (drop 3 (demo_tasks (Some "STOPPED")))
            (ecstypes.mkTask (Some demo_task) (Some "STOPPED"))).
  - reflexivity.
  - reflexivity.
  - repeat constructor; discriminate.
  - reflexivity.
  - reflexivity.
Defined.

Lemma first_matching_task_decides_unreadable :
  result (isTaskActive () (with_tasks (demo_tasks None)) demo_cluster demo_task) start
  = Done (true, None)
  ∧ result (isTaskActive () (with_tasks (take 2 (demo_tasks None)))
              demo_cluster demo_task) start
  = Done (false, None).
Proof.
  split.
  - eapply (first_matching_task_decides () (with_tasks (demo_tasks None))
              demo_cluster demo_task start _ _ eq_refl).
    + instantiate (3 := take 2 (demo_tasks None)). reflexivity.
    + repeat constructor; discriminate.
    + reflexivity.
    + reflexivity.
  - eapply (first_matching_task_decides () (with_tasks (take 2 (demo_tasks None)))
              demo_cluster demo_task start _ _ eq_refl).
    repeat constructor; discriminate.
Defined.

Lemma definition_active_iff_inactive_status :
  ∃ verdict,
    result (isTaskDefinitionActive ()
              (with_definition
                 (Some (ecstypes.mkTaskDefinition (Some demo_definition)
                          ecstypes.TaskDefinitionStatusInactive)))
              demo_definition) start = Done (verdict, None)
    ∧ (verdict = true ↔
       ∃ td, Some (ecstypes.mkTaskDefinition (Some demo_definition)
                     ecstypes.TaskDefinitionStatusInactive) = Some td
             ∧ ecstypes.TaskDefinitionArn td = Some demo_definition
             ∧ ecstypes.Status td = ecstypes.TaskDefinitionStatusActive).
Proof.
  apply (definition_active_iff ()
           (with_definition
              (Some (ecstypes.mkTaskDefinition (Some demo_definition)
                       ecstypes.TaskDefinitionStatusInactive)))
           demo_definition start
           (ecs.mkDescribeTaskDefinitionOutput
              (Some (ecstypes.mkTaskDefinition (Some demo_definition)
                       ecstypes.TaskDefinitionStatusInactive)))
           ["DescribeTaskDefinition"]).
  reflexivity.
Defined.

Lemma subscription_not_found_is_inactive_gone :
  result (isSnsSubscriptionActive ()
            (with_subscription (None, Some subscription_gone)) demo_subscription) start
  = Done (false, None).
Proof.
  eapply (subscription_not_found_is_inactive ()
            (with_subscription (None, Some subscription_gone))
            demo_subscription start None subscription_gone).
  - reflexivity.
  - unfold subscription_gone, sdk_error. repeat constructor.
Defined.

Lemma reservations_decide_verdict_two :
  result (isEc2InstanceActive ()
            (with_instances [ec2types.mkReservation (Some "r-1");
                             ec2types.mkReservation (Some "r-2")])
            demo_instance) start = Done (true, None)
  ∧ warnings (emitted (isEc2InstanceActive ()
            (with_instances [ec2types.mkReservation (Some "r-1");
                             ec2types.mkReservation (Some "r-2")])
            demo_instance) start)
    = [slog.mkRecord slog.LevelWarn
         "unexpected number of instance reservations found: 2"
         [("instance_id", demo_instance)]].
Proof.
  eapply (reservations_decide_verdict ()
            (with_instances [ec2types.mkReservation (Some "r-1");
                             ec2types.mkReservation (Some "r-2")])
            demo_instance start _ _ eq_refl).
  simpl. lia.
Defined.

Lemma no_attribute_is_inactive_empty_map :
  result (isSnsSubscriptionActive ()
            (with_subscription
               (Some (sns.mkGetSubscriptionAttributesOutput (Some ∅)), None))
            demo_subscription) start = Done (false, None)
  ∧ result (isSqsQueueActive ()
            (with_queue
               (Some (sqs.mkGetQueueAttributesOutput
                        (Some {["QueueArn" := ""]})), None))
            demo_queue) start = Done (false, None).
Proof.
  destruct (no_attribute_is_inactive ()
              (with_subscription
                 (Some (sns.mkGetSubscriptionAttributesOutput (Some ∅)), None))
              start) as [Hsubscription _].
  destruct (no_attribute_is_inactive ()
              (with_queue
                 (Some (sqs.mkGetQueueAttributesOutput
                          (Some {["QueueArn" := ""]})), None))
              start) as [_ Hqueue].
  split.
  - apply (Hsubscription demo_subscription
             (sns.mkGetSubscriptionAttributesOutput (Some ∅))
             ["GetSubscriptionAttributes"]).
    + reflexivity.
    + right. exists (∅ : gmap string string).
      split; [reflexivity|]. left. reflexivity.
  - apply (Hqueue demo_queue
             (sqs.mkGetQueueAttributesOutput (Some {["QueueArn" := ""]}))
             ["GetQueueAttributes"]).
    + reflexivity.
    + right. exists ({["QueueArn" := ""]} : gmap string string).
      split; [reflexivity|]. right. reflexivity.
Defined.

Lemma nil_response_is_inactive_both :
  result (isSnsSubscriptionActive () (with_subscription (None, None))
            demo_subscription) start = Done (false, None)
  ∧ result (isSqsQueueActive () (with_queue (None, None)) demo_queue) start
    = Done (false, None).
Proof.
  destruct (nil_response_is_inactive () (with_subscription (None, None)) start)
    as (Hsubscription & _).
  destruct (nil_response_is_inactive () (with_queue (None, None)) start)
    as (_ & _ & Hqueue & _).
  split.
  - apply (Hsubscription demo_subscription ["GetSubscriptionAttributes"]).
    reflexivity.
  - apply (Hqueue demo_queue ["GetQueueAttributes"]). reflexivity.
Defined.

Lemma teardown_propagates_failure_stop :
  ∃ failure,
    result (stopEcsTask () (failing cancelled) demo_cluster demo_task) start
    = Done failure
    ∧ world (after (stopEcsTask () (failing cancelled) demo_cluster demo_task) start)
      = ["StopTask"]
    ∧ records (after (stopEcsTask () (failing cancelled) demo_cluster demo_task) start)
      = []
    ∧ (failure = None ↔ Some cancelled = None)
    ∧ (∀ e, Some cancelled = Some e → failure = Some (fmt.Errorf_w "stop task: " e)).
Proof.
  exact (proj1 (teardown_propagates_failure () (failing cancelled))
           demo_cluster demo_task start).
Defined.

End Scenarios.

(** ** Further properties of the checks and teardowns *)

Section Further.
Context {World Ctx : Type}.
Implicit Types (ctx : Ctx) (cfg : aws_Config (World:=World) (Ctx:=Ctx)).
Implicit Types (env : Env (World:=World)) (e : error).

(** *** What the task loop does to the state *)

(** The loop leaves the provider alone and only adds log records, each
    with the attributes of its logger. *)
Lemma rangeTasks_after logger (taskArn : string) (tasks : list ecstypes.Task) env :
  ∃ rs,
    snd (rangeTasks logger taskArn tasks env) = mkEnv (world env) (records env ++ rs)
    ∧ Forall (λ r, logger `prefix_of` slog.attrs r) rs.
Proof.
  induction tasks as [|ta rest IH]; simpl.
  - exists []. destruct env. by rewrite app_nil_r.
  - destruct (task_matches taskArn ta); [|done].
    go_unfold. destruct (ecstypes.LastStatus ta) as [status|]; simpl.
    + eexists [_]. split.
      * by destruct (stopping_status status).
      * repeat constructor. by apply prefix_app_r.
    + eexists [_]. split; [done|]. repeat constructor. by apply prefix_app_r.
Qed.

(** The whole run of [isTaskActive] after a query that succeeded *)
Lemma isTaskActive_run ctx cfg (cluster task : string) env out w :
  tasks_answer ctx cfg cluster task env = ((Some out, None), w) →
  isTaskActive ctx cfg cluster task env
  = match rangeTasks [("arn", task); ("cluster_arn", cluster)] task (ecs.Tasks out)
            (mkEnv w (records env ++
               [slog.mkRecord slog.LevelDebug "checking if task is active"
                  [("arn", task); ("cluster_arn", cluster)]])) with
    | (Done (Some v), env') => (Done v, env')
    | (Done None, env') =>
        (Done (false, None),
         mkEnv (world env')
           (records env' ++
              [slog.mkRecord slog.LevelDebug "task not found"
                 [("arn", task); ("cluster_arn", cluster)]]))
    | (Panic r, env') => (Panic r, env')
    end.
Proof.
  intros Hanswer. go_answer Hanswer.
  by destruct (rangeTasks _ _ _ _) as [[[v|]|r] env'].
Qed.

(** *** Attributes decide the verdict *)

Lemma map_index_nonempty (m : gmap string string) (key : string) :
  map_index m key ≠ "" ↔ ∃ v, m !! key = Some v ∧ v ≠ "".
Proof.
  unfold map_index. destruct (m !! key) as [v|]; simpl.
  - split; [by exists v | by intros (v' & [= <-] & ?)].
  - split; [done | by intros (v & ? & _)].
Qed.

(** X1. After a subscription or queue query that returned no error, the
    verdict comes without error and is "active" exactly when there is a
    response, it has an attribute map, and the map has a non-empty value
    under TopicArn (for the queue: QueueArn); other keys do not count. *)
Theorem attribute_decides_verdict ctx cfg env :
  (∀ arn out w,
     subscription_answer ctx cfg arn env = ((out, None), w) →
     ∃ verdict,
       result (isSnsSubscriptionActive ctx cfg arn) env = Done (verdict, None)
       ∧ (verdict = true ↔
          ∃ o m v, out = Some o ∧ sns.Attributes o = Some m
                   ∧ m !! "TopicArn" = Some v ∧ v ≠ ""))
  ∧ (∀ url out w,
     queue_answer ctx cfg url env = ((out, None), w) →
     ∃ verdict,
       result (isSqsQueueActive ctx cfg url) env = Done (verdict, None)
       ∧ (verdict = true ↔
          ∃ o m v, out = Some o ∧ sqs.Attributes o = Some m
                   ∧ m !! "QueueArn" = Some v ∧ v ≠ "")).
Proof.
  split.
  - intros arn out w Hanswer. go_answer Hanswer.
    destruct out as [[[m|]]|]; simpl.
    + destruct (String.eqb (map_index m "TopicArn") "") eqn:Hv; simpl.
      * apply String.eqb_eq in Hv. exists false. split; [done|]. split; [done|].
        intros (o & m' & v & [= <-] & [= <-] & Hv' & Hne).
        unfold map_index in Hv. rewrite Hv' in Hv. done.
      * apply String.eqb_neq, map_index_nonempty in Hv as (v & Hv & Hne).
        exists true. split; [done|]. split; [|done]. intros _.
        by exists (sns.mkGetSubscriptionAttributesOutput (Some m)), m, v.
    + exists false. split; [done|]. split; [done|].
      by intros (o & m' & v & [= <-] & ? & _).
    + exists false. split; [done|]. split; [done|].
      by intros (o & m' & v & ? & _).
  - intros url out w Hanswer. go_answer Hanswer.
    destruct out as [[[m|]]|]; simpl.
    + destruct (String.eqb (map_index m "QueueArn") "") eqn:Hv; simpl.
      * apply String.eqb_eq in Hv. exists false. split; [done|]. split; [done|].
        intros (o & m' & v & [= <-] & [= <-] & Hv' & Hne).
        unfold map_index in Hv. rewrite Hv' in Hv. done.
      * apply String.eqb_neq, map_index_nonempty in Hv as (v & Hv & Hne).
        exists true. split; [done|]. split; [|done]. intros _.
        by exists (sqs.mkGetQueueAttributesOutput (Some m)), m, v.
    + exists false. split; [done|]. split; [done|].
      by intros (o & m' & v & [= <-] & ? & _).
    + exists false. split; [done|]. split; [done|].
      by intros (o & m' & v & ? & _).
Qed.

(** *** One query, nothing else *)

(** X2. Whatever the provider answers, a liveness check leaves the
    provider in the state in which its one describing call left it: it
    asks once, with the identifiers it was given, and calls nothing
    else, in particular none of the teardown operations. *)
Theorem check_asks_once ctx cfg env :
  (∀ cluster task,
     world (after (isTaskActive ctx cfg cluster task) env)
     = snd (tasks_answer ctx cfg cluster task env))
  ∧ (∀ arn,
     world (after (isTaskDefinitionActive ctx cfg arn) env)
     = snd (definition_answer ctx cfg arn env))
  ∧ (∀ arn,
     world (after (isSnsSubscriptionActive ctx cfg arn) env)
     = snd (subscription_answer ctx cfg arn env))
  ∧ (∀ url,
     world (after (isSqsQueueActive ctx cfg url) env)
     = snd (queue_answer ctx cfg url env))
  ∧ (∀ id,
     world (after (isEc2InstanceActive ctx cfg id) env)
     = snd (instances_answer ctx cfg id env)).
Proof.
  repeat apply conj.
  - intros cluster task.
    destruct (tasks_answer ctx cfg cluster task env) as [[[out|] [e|]] w] eqn:Hanswer;
      simpl; try by go_answer Hanswer.
    unfold after. rewrite (isTaskActive_run _ _ _ _ _ _ _ Hanswer).
    match goal with |- context [rangeTasks ?l ?t ?ts ?en] =>
      destruct (rangeTasks_after l t ts en) as (rs & Henv & _);
      destruct (rangeTasks l t ts en) as [[[v|]|r] env']
    end; simpl in *; by subst env'.
  - intros arn. go_unfold.
    destruct (DescribeTaskDefinition _ _ _ _) as [[[out|] [e|]] w]; simpl;
      repeat (case_match; simpl); done.
  - intros arn. go_unfold.
    destruct (GetSubscriptionAttributes _ _ _ _) as [[[out|] [e|]] w]; simpl;
      repeat (case_match; simpl); done.
  - intros url. go_unfold.
    destruct (GetQueueAttributes _ _ _ _) as [[[out|] [e|]] w]; simpl;
      repeat (case_match; simpl); done.
  - intros id. go_unfold.
    destruct (DescribeInstances _ _ _ _) as [[[out|] [e|]] w]; simpl;
      repeat (case_match; simpl); done.
Qed.

(** *** A nil response without error *)

(** X3. The task, task-definition and instance checks read the response
    without testing it for nil: if the provider returns neither a
    response nor an error they panic, where the subscription and queue
    checks return "inactive". *)
Theorem nil_response_panics ctx cfg env :
  (∀ cluster task w,
     tasks_answer ctx cfg cluster task env = ((None, None), w) →
     ∃ reason, result (isTaskActive ctx cfg cluster task) env = Panic reason)
  ∧ (∀ arn w,
     definition_answer ctx cfg arn env = ((None, None), w) →
     ∃ reason, result (isTaskDefinitionActive ctx cfg arn) env = Panic reason)
  ∧ (∀ id w,
     instances_answer ctx cfg id env = ((None, None), w) →
     ∃ reason, result (isEc2InstanceActive ctx cfg id) env = Panic reason).
Proof.
  repeat apply conj.
  - intros cluster task w Hanswer. go_answer Hanswer. by eexists.
  - intros arn w Hanswer. go_answer Hanswer. by eexists.
  - intros id w Hanswer. go_answer Hanswer. by eexists.
Qed.

(** *** The warning of the task check *)

(** X4. After a task query that succeeded, the task check writes a
    warning exactly when the entry it stops at has no readable status:
    then it writes one, with the task's and the cluster's ARN.  When the
    status can be read, and when no entry has the ARN, it writes none. *)
Theorem task_warning_iff_unreadable ctx cfg (cluster task : string) env out w :
  tasks_answer ctx cfg cluster task env = ((Some out, None), w) →
  (Forall (λ t, ecstypes.TaskArn t ≠ Some task) (ecs.Tasks out) →
   warnings (emitted (isTaskActive ctx cfg cluster task) env) = [])
  ∧ (∀ (pre post : list ecstypes.Task) (ta : ecstypes.Task),
       ecs.Tasks out = pre ++ ta :: post →
       Forall (λ t, ecstypes.TaskArn t ≠ Some task) pre →
       ecstypes.TaskArn ta = Some task →
       warnings (emitted (isTaskActive ctx cfg cluster task) env)
       = match ecstypes.LastStatus ta with
         | Some _ => []
         | None => [slog.mkRecord slog.LevelWarn "task found, but cannot read status"
                      [("arn", task); ("cluster_arn", cluster)]]
         end).
Proof.
  intros Hanswer. split.
  - intros Hall. unfold emitted, after.
    rewrite (isTaskActive_run _ _ _ _ _ _ _ Hanswer), rangeTasks_miss by done.
    simpl. by rewrite <-app_assoc, drop_app_length.
  - intros pre post ta Htasks Hpre Harn. unfold emitted, after.
    rewrite (isTaskActive_run _ _ _ _ _ _ _ Hanswer), Htasks, rangeTasks_skip by done.
    simpl. rewrite task_matches_true by done.
    destruct (ecstypes.LastStatus ta) as [status|]; go_unfold.
    + destruct (stopping_status status); simpl;
        by rewrite <-app_assoc, drop_app_length.
    + by rewrite <-app_assoc, drop_app_length.
Qed.

(** *** Log records carry the identifiers *)

Ltac tags_cases :=
  repeat (case_match; simpl);
  rewrite <-?app_assoc, ?drop_app_length; simpl;
  (split; [done|]); (split; [done|]);
  repeat constructor; simpl; by eexists.

(** X7. Every liveness check keeps the log records written before it,
    adds at least one, and every record it adds carries the identifiers
    of the resource it checks (for a task: its ARN and the cluster's),
    on every path, failed queries and panics included. *)
Theorem check_tags_records ctx cfg :
  (∀ cluster task,
     tags (isTaskActive ctx cfg cluster task)
       [("arn", task); ("cluster_arn", cluster)])
  ∧ (∀ arn, tags (isTaskDefinitionActive ctx cfg arn) [("arn", arn)])
  ∧ (∀ arn, tags (isSnsSubscriptionActive ctx cfg arn) [("arn", arn)])
  ∧ (∀ url, tags (isSqsQueueActive ctx cfg url) [("url", url)])
  ∧ (∀ id, tags (isEc2InstanceActive ctx cfg id) [("instance_id", id)]).
Proof.
  repeat apply conj.
  - intros cluster task env.
    destruct (tasks_answer ctx cfg cluster task env) as [[[out|] [e|]] w] eqn:Hanswer;
      try (go_answer Hanswer; tags_cases).
    unfold emitted, after. rewrite (isTaskActive_run _ _ _ _ _ _ _ Hanswer).
    match goal with |- context [rangeTasks ?l ?t ?ts ?en] =>
      destruct (rangeTasks_after l t ts en) as (rs & Henv & Hrs);
      destruct (rangeTasks l t ts en) as [[[v|]|r] env']
    end; simpl in *; subst env'; simpl;
      rewrite <-?app_assoc, ?drop_app_length; simpl.
    + split; [done|]. split; [done|]. constructor; [by eexists | done].
    + split; [done|]. split; [done|]. constructor; [by eexists|].
      apply Forall_app. split; [done|]. repeat constructor. by eexists.
    + split; [done|]. split; [done|]. constructor; [by eexists | done].
  - intros arn env. go_unfold.
    destruct (DescribeTaskDefinition _ _ _ _) as [[[out|] [e|]] w]; simpl; tags_cases.
  - intros arn env. go_unfold.
    destruct (GetSubscriptionAttributes _ _ _ _) as [[[out|] [e|]] w]; simpl;
      tags_cases.
  - intros url env. go_unfold.
    destruct (GetQueueAttributes _ _ _ _) as [[[out|] [e|]] w]; simpl; tags_cases.
  - intros id env. go_unfold.
    destruct (DescribeInstances _ _ _ _) as [[[out|] [e|]] w]; simpl; tags_cases.
Qed.

(** *** Errors *)

(** X6. When the subscription query fails, the check says "inactive"
    exactly when the error carries the SNS not-found exception, that
    is, when the first API error of its chain has that type.  Every
    other failure (a cancelled context, another API error, a not-found
    exception below another API error) is returned with the verdict
    "active". *)
Theorem subscription_error_inactive_iff ctx cfg (arn : string) env out e w :
  subscription_answer ctx cfg arn env = ((out, Some e), w) →
  (result (isSnsSubscriptionActive ctx cfg arn) env = Done (false, None)
   ↔ carries sns_NotFoundException e)
  ∧ (result (isSnsSubscriptionActive ctx cfg arn) env
     = Done (true, Some (fmt.Errorf_w "get subscription attributes: " e))
     ↔ ¬ carries sns_NotFoundException e).
Proof.
  intros Hanswer.
  rewrite (isSnsSubscriptionActive_query_error _ _ _ _ _ _ _ Hanswer).
  rewrite <-is_sns_NotFoundException_carries.
  destruct (is_sns_NotFoundException e); split; split; done.
Qed.

(** Wrapping with [%w] hides nothing from [errors.As]. *)
Lemma As_APIError_Errorf_w (prefix : string) e :
  errors.As_APIError (fmt.Errorf_w prefix e) = errors.As_APIError e.
Proof. done. Qed.

(** X5. The error a teardown returns unwraps to the error of the
    provider call, and [errors.As] finds in it the API error it finds in
    that one: a caller can still tell, through the wrapping, that the
    resource was gone already. *)
Theorem teardown_error_keeps_cause ctx cfg env :
  (∀ cluster task failure,
     result (stopEcsTask ctx cfg cluster task) env = Done (Some failure) →
     ∃ e, snd (fst (StopTask (ecs_NewFromConfig cfg) ctx
                      (ecs.mkStopTaskInput (Some cluster) (Some task))
                      (world env))) = Some e
          ∧ unwrap failure = Some e
          ∧ errors.As_APIError failure = errors.As_APIError e)
  ∧ (∀ arn failure,
     result (deregisterEcsTaskDefinition ctx cfg arn) env = Done (Some failure) →
     ∃ e, snd (fst (DeregisterTaskDefinition (ecs_NewFromConfig cfg) ctx
                      (ecs.mkDeregisterTaskDefinitionInput (Some arn))
                      (world env))) = Some e
          ∧ unwrap failure = Some e
          ∧ errors.As_APIError failure = errors.As_APIError e)
  ∧ (∀ arn failure,
     result (unsubscribeSqsQueue ctx cfg arn) env = Done (Some failure) →
     ∃ e, snd (fst (Unsubscribe (sns_NewFromConfig cfg) ctx
                      (sns.mkUnsubscribeInput (Some arn)) (world env))) = Some e
          ∧ unwrap failure = Some e
          ∧ errors.As_APIError failure = errors.As_APIError e)
  ∧ (∀ url failure,
     result (deleteSqsQueue ctx cfg url) env = Done (Some failure) →
     ∃ e, snd (fst (DeleteQueue (sqs_NewFromConfig cfg) ctx
                      (sqs.mkDeleteQueueInput (Some url)) (world env))) = Some e
          ∧ unwrap failure = Some e
          ∧ errors.As_APIError failure = errors.As_APIError e).
Proof.
  repeat apply conj.
  - intros cluster task failure. go_unfold.
    destruct (StopTask _ _ _ _) as [[o [e|]] w]; simpl; [|done].
    intros [= <-]. by exists e.
  - intros arn failure. go_unfold.
    destruct (DeregisterTaskDefinition _ _ _ _) as [[o [e|]] w]; simpl; [|done].
    intros [= <-]. by exists e.
  - intros arn failure. go_unfold.
    destruct (Unsubscribe _ _ _ _) as [[o [e|]] w]; simpl; [|done].
    intros [= <-]. by exists e.
  - intros url failure. go_unfold.
    destruct (DeleteQueue _ _ _ _) as [[o [e|]] w]; simpl; [|done].
    intros [= <-]. by exists e.
Qed.

(** *** No other panic *)

Lemma rangeTasks_returns logger (taskArn : string) (tasks : list ecstypes.Task) env :
  ∃ r, fst (rangeTasks logger taskArn tasks env) = Done r.
Proof.
  induction tasks as [|ta rest IH]; simpl; [by eexists|].
  destruct (task_matches taskArn ta); [|done].
  go_unfold. destruct (ecstypes.LastStatus ta) as [status|]; simpl.
  - destruct (stopping_status status); by eexists.
  - by eexists.
Qed.

(** X10. A nil response without error is the only thing that makes a
    liveness check panic: the task, task-definition and instance checks
    panic in no other case, and the subscription and queue checks never. *)
Theorem checks_panic_only_on_nil ctx cfg env :
  (∀ cluster task reason,
     result (isTaskActive ctx cfg cluster task) env = Panic reason →
     fst (tasks_answer ctx cfg cluster task env) = (None, None))
  ∧ (∀ arn reason,
     result (isTaskDefinitionActive ctx cfg arn) env = Panic reason →
     fst (definition_answer ctx cfg arn env) = (None, None))
  ∧ (∀ arn, ∃ v, result (isSnsSubscriptionActive ctx cfg arn) env = Done v)
  ∧ (∀ url, ∃ v, result (isSqsQueueActive ctx cfg url) env = Done v)
  ∧ (∀ id reason,
     result (isEc2InstanceActive ctx cfg id) env = Panic reason →
     fst (instances_answer ctx cfg id env) = (None, None)).
Proof.
  repeat apply conj.
  - intros cluster task reason.
    destruct (tasks_answer ctx cfg cluster task env) as [[[out|] [e|]] w] eqn:Hanswer;
      simpl; try done; try by go_answer Hanswer.
    unfold result. rewrite (isTaskActive_run _ _ _ _ _ _ _ Hanswer).
    match goal with |- context [rangeTasks ?l ?t ?ts ?en] =>
      destruct (rangeTasks_returns l t ts en) as (r & Hr);
      destruct (rangeTasks l t ts en) as [[[v|]|r'] env']
    end; simpl in *; done.
  - intros arn reason. go_unfold.
    destruct (DescribeTaskDefinition _ _ _ _) as [[[out|] [e|]] w]; simpl;
      repeat (case_match; simpl); done.
  - intros arn. go_unfold.
    destruct (GetSubscriptionAttributes _ _ _ _) as [[[out|] [e|]] w]; simpl;
      repeat (case_match; simpl); by eexists.
  - intros url. go_unfold.
    destruct (GetQueueAttributes _ _ _ _) as [[[out|] [e|]] w]; simpl;
      repeat (case_match; simpl); by eexists.
  - intros id reason. go_unfold.
    destruct (DescribeInstances _ _ _ _) as [[[out|] [e|]] w]; simpl;
      repeat (case_match; simpl); done.
Qed.

End Further.

(** ** The docker helpers *)

Ltac docker_unfold :=
  unfold runs, needs_docker, emitted;
  unfold result, after, DockerBuild, DockerTag, DockerPush, DockerInspect,
    exec_Command, Cmd_Start, Cmd_Wait, slog_Debug, emit;
  unfold mbind, mret, Go_bind, Go_ret; simpl.

Section DockerHelpers.
Context {World : Type}.
Implicit Types (sys : System (World:=World)).

Ltac docker_runs :=
  intros env lp Hlook; docker_unfold; rewrite Hlook;
  unfold exec.set_Stderr, exec.set_Stdout, exec.set_Dir; simpl;
  match goal with
  | |- context [StartProcess ?s ?c ?w] =>
      exists c; destruct (StartProcess s c w) as [[e|] w'] eqn:Hstart
  end; simpl;
  [| match goal with
     | |- context [WaitProcess ?s ?c ?w] => destruct (WaitProcess s c w) eqn:Hwait
     end; simpl ];
  rewrite drop_app_length; done.

(** X8. With docker on the search path, each helper starts one docker
    process: build with the arguments build, -t, the image name and the
    dot, in the repository directory; tag, push and manifest inspect
    with their image names, in the current directory.  Each image name
    is one argument, whatever it contains.  The output is discarded and
    the errors go to the standard error stream.  If the start fails its
    error is returned and nothing is waited for; else the helper waits
    once and returns what the wait returns. *)
Theorem docker_helpers_run sys :
  (∀ dir image,
     runs sys (DockerBuild sys dir image) ["build"; "-t"; image; "."] dir)
  ∧ (∀ src dst, runs sys (DockerTag sys src dst) ["tag"; src; dst] "")
  ∧ (∀ image, runs sys (DockerPush sys image) ["push"; image] "")
  ∧ (∀ image,
     runs sys (DockerInspect sys image) ["manifest"; "inspect"; image] "").
Proof.
  repeat apply conj; intros.
  - docker_runs.
  - docker_runs.
  - docker_runs.
  - docker_runs.
Qed.

Ltac docker_needs :=
  intros env lp e Hlook; docker_unfold; rewrite Hlook; simpl;
  rewrite drop_app_length; done.

(** X9. Without docker on the search path, each helper returns the
    error of the lookup as it is, starts no process and waits for none,
    and has logged the command it was asked to run, with the program
    name as given. *)
Theorem docker_helpers_need_docker sys :
  (∀ dir image,
     needs_docker sys (DockerBuild sys dir image)
       ("docker build -t " +:+ image +:+ " ."))
  ∧ (∀ src dst,
     needs_docker sys (DockerTag sys src dst)
       ("docker tag " +:+ src +:+ " " +:+ dst))
  ∧ (∀ image, needs_docker sys (DockerPush sys image) ("docker push " +:+ image))
  ∧ (∀ image,
     needs_docker sys (DockerInspect sys image)
       ("docker manifest inspect " +:+ image)).
Proof.
  repeat apply conj; intros.
  - docker_needs.
  - docker_needs.
  - docker_needs.
  - docker_needs.
Qed.

End DockerHelpers.


(** ** Further runs on scripted providers and systems *)

Section FurtherScenarios.
Import script.

Lemma attribute_decides_verdict_topic :
  ∃ verdict,
    result (isSnsSubscriptionActive ()
              (with_subscription
                 (Some (sns.mkGetSubscriptionAttributesOutput
                          (Some {["TopicArn" := "arn:aws:sns:eu-west-1:1:requests"]})),
                  None))
              demo_subscription) start = Done (verdict, None)
    ∧ (verdict = true ↔
       ∃ o m v,
         Some (sns.mkGetSubscriptionAttributesOutput
                 (Some {["TopicArn" := "arn:aws:sns:eu-west-1:1:requests"]})) = Some o
         ∧ sns.Attributes o = Some m
         ∧ m !! "TopicArn" = Some v ∧ v ≠ "").
Proof.
  apply (proj1 (attribute_decides_verdict ()
                  (with_subscription
                     (Some (sns.mkGetSubscriptionAttributesOutput
                              (Some {["TopicArn" := "arn:aws:sns:eu-west-1:1:requests"]})),
                      None))
                  start)
           demo_subscription _ ["GetSubscriptionAttributes"]).
  reflexivity.
Defined.

Lemma nil_response_panics_task :
  ∃ reason,
    result (isTaskActive ()
              (mkConfig (ecs_client (None, None) (None, None) None None)
                 quiet_sns quiet_sqs quiet_ec2)
              demo_cluster demo_task) start = Panic reason.
Proof.
  apply (proj1 (nil_response_panics ()
                  (mkConfig (ecs_client (None, None) (None, None) None None)
                     quiet_sns quiet_sqs quiet_ec2)
                  start)
           demo_cluster demo_task ["DescribeTasks"]).
  reflexivity.
Defined.

Lemma task_warning_iff_unreadable_demo :
  warnings (emitted (isTaskActive () (with_tasks (demo_tasks None))
                       demo_cluster demo_task) start)
  = [slog.mkRecord slog.LevelWarn "task found, but cannot read status"
       [("arn", demo_task); ("cluster_arn", demo_cluster)]].
Proof.
  apply (proj2 (task_warning_iff_unreadable () (with_tasks (demo_tasks None))
                  demo_cluster demo_task start
                  (ecs.mkDescribeTasksOutput (demo_tasks None)) ["DescribeTasks"]
                  eq_refl)
           (take 2 (demo_tasks None)) (drop 3 (demo_tasks None))
           (ecstypes.mkTask (Some demo_task) None)).
  - reflexivity.
  - repeat constructor; discriminate.
  - reflexivity.
Defined.

Lemma teardown_error_keeps_cause_unsubscribe :
  ∃ e, Some subscription_gone = Some e
       ∧ unwrap (fmt.Errorf_w "unsubscribe from request topic: " subscription_gone)
         = Some e
       ∧ errors.As_APIError
           (fmt.Errorf_w "unsubscribe from request topic: " subscription_gone)
         = errors.As_APIError e.
Proof.
  destruct (teardown_error_keeps_cause () (failing subscription_gone) start)
    as (_ & _ & Hunsubscribe & _).
  apply (Hunsubscribe demo_subscription
           (fmt.Errorf_w "unsubscribe from request topic: " subscription_gone)).
  reflexivity.
Defined.

(** A not-found exception below another API error *)
Definition shielded : error :=
  mkError smithy_GenericAPIError "api error InternalError: try again"
    (Some (mkError sns_NotFoundException "NotFound: Subscription does not exist" None)).

Lemma shielded_not_carried : ¬ carries sns_NotFoundException shielded.
Proof.
  unfold shielded. intros Hc. inversion Hc as [|t' msg inner Hno Hin]. discriminate.
Qed.

Lemma subscription_error_inactive_iff_shielded :
  result (isSnsSubscriptionActive () (with_subscription (None, Some shielded))
            demo_subscription) start
  = Done (true, Some (fmt.Errorf_w "get subscription attributes: " shielded)).
Proof.
  apply (subscription_error_inactive_iff ()
           (with_subscription (None, Some shielded)) demo_subscription start
           None shielded ["GetSubscriptionAttributes"] eq_refl).
  exact shielded_not_carried.
Defined.

Lemma docker_helpers_run_build_fails :
  result (DockerBuild (shell.system true None (Some shell.exit_status_1))
            "/src/kubo" "thunderdome:kubo-v0.25") start
  = Done (Some shell.exit_status_1)
  ∧ world (after (DockerBuild (shell.system true None (Some shell.exit_status_1))
                    "/src/kubo" "thunderdome:kubo-v0.25") start)
    = ["start docker build -t thunderdome:kubo-v0.25 .";
       "wait docker build -t thunderdome:kubo-v0.25 ."].
Proof.
  destruct (proj1 (docker_helpers_run
                     (shell.system true None (Some shell.exit_status_1)))
              "/src/kubo" "thunderdome:kubo-v0.25" start "/usr/bin/docker" eq_refl)
    as (cmd & Hargs & _ & _ & _ & _ & Hrun).
  simpl in Hrun. rewrite Hargs in Hrun. exact Hrun.
Defined.

Lemma docker_helpers_need_docker_push :
  result (DockerPush (shell.system false None None) "thunderdome:kubo-v0.25") start
  = Done (Some shell.docker_missing)
  ∧ world (after (DockerPush (shell.system false None None)
                    "thunderdome:kubo-v0.25") start) = []
  ∧ emitted (DockerPush (shell.system false None None) "thunderdome:kubo-v0.25") start
    = [slog.mkRecord slog.LevelDebug "docker push thunderdome:kubo-v0.25" []].
Proof.
  exact (proj1 (proj2 (proj2 (docker_helpers_need_docker
                                (shell.system false None None))))
           "thunderdome:kubo-v0.25" start "" shell.docker_missing eq_refl).
Defined.

Lemma checks_panic_only_on_nil_instance :
  fst (instances_answer ()
         (mkConfig quiet_ecs quiet_sns quiet_sqs (ec2_client (None, None)))
         demo_instance start) = (None, None).
Proof.
  destruct (checks_panic_only_on_nil ()
              (mkConfig quiet_ecs quiet_sns quiet_sqs (ec2_client (None, None)))
              start) as (_ & _ & _ & _ & Hinstance).
  apply (Hinstance demo_instance
           "invalid memory address or nil pointer dereference").
  reflexivity.
Defined.

End FurtherScenarios.
